(** * The ULP polling engine of reed_rot_btn.S, embedded in Rocq

    The ULP coprocessor program [reed_rot_btn.S] polls sixteen RTC inputs,
    debounces a double pole reed contact, a rotary AB encoder and push
    buttons, and wakes the main cores through three shared words
    ([evnt], [rot_cnt], [btn]).

    One pass from the label [loop_forever] back to it is one tick.  Every
    basic block of the program is a definition of the same name; a jump is a
    call of the block it targets.  Registers hold 16 bits, the stage counter
    8 bits; [ld] and [st] move the low 16 bits of a memory word, which is
    all the program ever reads.  [r1] (current sample) is the argument of
    the blocks, [r2] (previous sample) and the stage counter live in the
    machine state, [r0] and [r3] are written before they are read in every
    tick and appear as local names.  Where the program loads a variable's
    address into [r3] and then executes [ld]/[st] through it, the embedding
    names the variable. *)

From Stdlib Require Import ZArith List Bool Lia.
Import ListNotations.
Local Open Scope Z_scope.

(** ** Configuration (Kconfig) *)

Record config := {
  REED0_RTC_GPIO_NUM : Z;
  REED1_RTC_GPIO_NUM : Z;
  REED_DEBOUNCE_OUT : bool;
  REED_DEBOUNCE_RTC_GPIO_NUM : Z;
  AB_RTC_A_GPIO_NUM : Z;
  BTN_RTC_GPIO_MASK : Z;
  WAIT_REED_SET : Z;
  WAIT_ROT_SET : Z;
  WAIT_BTN_SET : Z;
  REED_DIV : Z;
  (* declared by the top level Kconfig only *)
  ROT_CNT_MAX : Z
}.

(** The ranges the two Kconfig files give. *)
Definition config_ok (c : config) : Prop :=
  0 <= REED0_RTC_GPIO_NUM c <= 14 /\
  0 <= REED1_RTC_GPIO_NUM c <= 14 /\
  0 <= AB_RTC_A_GPIO_NUM c <= 14 /\
  1 <= BTN_RTC_GPIO_MASK c <= 65532 /\
  1 <= WAIT_REED_SET c <= 65535 /\
  1 <= WAIT_ROT_SET c <= 65535 /\
  1 <= WAIT_BTN_SET c <= 65535 /\
  1 <= REED_DIV c <= 255 /\
  1 <= ROT_CNT_MAX c <= 65535.

(** The defaults of the Kconfig files. *)
Definition default_config : config := {|
  REED0_RTC_GPIO_NUM := 0;
  REED1_RTC_GPIO_NUM := 9;
  REED_DEBOUNCE_OUT := false;
  REED_DEBOUNCE_RTC_GPIO_NUM := 10;
  AB_RTC_A_GPIO_NUM := 3;
  BTN_RTC_GPIO_MASK := 0x0120;
  WAIT_REED_SET := 10;
  WAIT_ROT_SET := 500;
  WAIT_BTN_SET := 300;
  REED_DIV := 5;
  ROT_CNT_MAX := 19
|}.

(** ** Constants of the two sides *)

(* reed_rot_btn.S *)
Definition REED_EVNT : Z := 1.
Definition ROT_EVNT : Z := 2.
Definition BTN_EVNT : Z := 3.

(* keypad_rotdecode.h *)
Definition EVNT_BTN_PRSS : Z := 1.
Definition EVNT_BTN_RELS : Z := 2.
Definition EVNT_ROT : Z := 3.

Definition IO_ROT_MASK (c : config) : Z := Z.shiftl 3 (AB_RTC_A_GPIO_NUM c).
Definition IO_REED0_MASK (c : config) : Z := Z.shiftl 1 (REED0_RTC_GPIO_NUM c).
Definition IO_REED1_MASK (c : config) : Z := Z.shiftl 1 (REED1_RTC_GPIO_NUM c).

(* (IO_REED0_MASK | IO_REED1_MASK | IO_ROT_MASK | CONFIG_BTN_RTC_GPIO_MASK) *)
Definition IO_USED_MASK (c : config) : Z :=
  Z.lor (Z.lor (Z.lor (IO_REED0_MASK c) (IO_REED1_MASK c)) (IO_ROT_MASK c))
        (BTN_RTC_GPIO_MASK c).

(** The look-up table [st_tbl], sixteen words. *)
Definition st_tbl : list Z :=
  [ 0; 1; 2; 0;
    2; 0; 0; 1;
    1; 0; 0; 2;
    0; 2; 1; 0 ].

(** ** Machine words *)

Definition w16 (x : Z) : Z := x mod 65536.
Definition add16 (a b : Z) : Z := w16 (a + b).
Definition sub16 (a b : Z) : Z := w16 (a - b).
Definition w8 (x : Z) : Z := x mod 256.

(** [rsh Rdst, Rsrc, imm]: a shift to the right.  The immediate is a 16 bit
    field, so a negative count stands for its two's complement, a count of
    65534 or 65535 for the counts -2 and -1 that the program can have:
    whether the shifter looks at 4, 5 or 16 bits of it, nothing of a 16 bit
    operand is left under the mask 0x000c then. *)
Definition rsh (a imm : Z) : Z :=
  Z.shiftr a (if imm <? 0 then w16 imm else imm).

(** ** Machine state *)

Inductive var : Type :=
  | Evnt | RotCnt | Btn                       (* .global, shared *)
  | RotTmp | WaitReed | WaitRot | WaitBtn.    (* ULP only *)

Record machine := {
  r2 : Z;                 (* previous IO sample *)
  stage_cnt : Z;          (* number of reed triggers *)
  evnt : Z;
  rot_cnt : Z;
  btn : Z;
  rot_tmp : Z;
  wait_reed_cnt : Z;
  wait_rot_cnt : Z;
  wait_btn_cnt : Z
}.

Definition load (v : var) (m : machine) : Z :=
  match v with
  | Evnt => evnt m
  | RotCnt => rot_cnt m
  | Btn => btn m
  | RotTmp => rot_tmp m
  | WaitReed => wait_reed_cnt m
  | WaitRot => wait_rot_cnt m
  | WaitBtn => wait_btn_cnt m
  end.

Definition store (v : var) (x : Z) (m : machine) : machine :=
  match v with
  | Evnt =>
      {| r2 := r2 m; stage_cnt := stage_cnt m; evnt := x; rot_cnt := rot_cnt m;
         btn := btn m; rot_tmp := rot_tmp m; wait_reed_cnt := wait_reed_cnt m;
         wait_rot_cnt := wait_rot_cnt m; wait_btn_cnt := wait_btn_cnt m |}
  | RotCnt =>
      {| r2 := r2 m; stage_cnt := stage_cnt m; evnt := evnt m; rot_cnt := x;
         btn := btn m; rot_tmp := rot_tmp m; wait_reed_cnt := wait_reed_cnt m;
         wait_rot_cnt := wait_rot_cnt m; wait_btn_cnt := wait_btn_cnt m |}
  | Btn =>
      {| r2 := r2 m; stage_cnt := stage_cnt m; evnt := evnt m; rot_cnt := rot_cnt m;
         btn := x; rot_tmp := rot_tmp m; wait_reed_cnt := wait_reed_cnt m;
         wait_rot_cnt := wait_rot_cnt m; wait_btn_cnt := wait_btn_cnt m |}
  | RotTmp =>
      {| r2 := r2 m; stage_cnt := stage_cnt m; evnt := evnt m; rot_cnt := rot_cnt m;
         btn := btn m; rot_tmp := x; wait_reed_cnt := wait_reed_cnt m;
         wait_rot_cnt := wait_rot_cnt m; wait_btn_cnt := wait_btn_cnt m |}
  | WaitReed =>
      {| r2 := r2 m; stage_cnt := stage_cnt m; evnt := evnt m; rot_cnt := rot_cnt m;
         btn := btn m; rot_tmp := rot_tmp m; wait_reed_cnt := x;
         wait_rot_cnt := wait_rot_cnt m; wait_btn_cnt := wait_btn_cnt m |}
  | WaitRot =>
      {| r2 := r2 m; stage_cnt := stage_cnt m; evnt := evnt m; rot_cnt := rot_cnt m;
         btn := btn m; rot_tmp := rot_tmp m; wait_reed_cnt := wait_reed_cnt m;
         wait_rot_cnt := x; wait_btn_cnt := wait_btn_cnt m |}
  | WaitBtn =>
      {| r2 := r2 m; stage_cnt := stage_cnt m; evnt := evnt m; rot_cnt := rot_cnt m;
         btn := btn m; rot_tmp := rot_tmp m; wait_reed_cnt := wait_reed_cnt m;
         wait_rot_cnt := wait_rot_cnt m; wait_btn_cnt := x |}
  end.

Definition set_r2 (x : Z) (m : machine) : machine :=
  {| r2 := x; stage_cnt := stage_cnt m; evnt := evnt m; rot_cnt := rot_cnt m;
     btn := btn m; rot_tmp := rot_tmp m; wait_reed_cnt := wait_reed_cnt m;
     wait_rot_cnt := wait_rot_cnt m; wait_btn_cnt := wait_btn_cnt m |}.

Definition set_stage (x : Z) (m : machine) : machine :=
  {| r2 := r2 m; stage_cnt := x; evnt := evnt m; rot_cnt := rot_cnt m;
     btn := btn m; rot_tmp := rot_tmp m; wait_reed_cnt := wait_reed_cnt m;
     wait_rot_cnt := wait_rot_cnt m; wait_btn_cnt := wait_btn_cnt m |}.

(** What a tick does that is visible outside the registers, in program
    order: a word stored, the main cores woken, the debug pin driven. *)
Inductive effect : Type :=
  | EStore (v : var) (x : Z)
  | EWake
  | EDbg (level : bool).

(** ** The monad of the blocks: state and an ordered log of effects *)

Definition ULP (A : Type) : Type := machine -> A * machine * list effect.

Definition ret {A} (a : A) : ULP A := fun m => (a, m, []).

Definition bind {A B} (x : ULP A) (f : A -> ULP B) : ULP B :=
  fun m =>
    let '(a, m1, l1) := x m in
    let '(b, m2, l2) := f a m1 in
    (b, m2, l1 ++ l2).

Declare Scope ulp_scope.
Delimit Scope ulp_scope with ulp.
Notation "x <- a ;; b" := (bind a (fun x => b))
  (at level 61, a at next level, right associativity) : ulp_scope.
Notation "a ;; b" := (bind a (fun _ => b))
  (at level 61, right associativity) : ulp_scope.
Local Open Scope ulp_scope.

(* ld r0, r3, 0   with r3 = &v *)
Definition ld (v : var) : ULP Z := fun m => (load v m, m, []).
(* st r0, r3, 0   with r3 = &v *)
Definition st (v : var) (x : Z) : ULP unit :=
  fun m => (tt, store v x m, [EStore v x]).
Definition wake : ULP unit := fun m => (tt, m, [EWake]).
(* r2 as a source operand *)
Definition get_r2 : ULP Z := fun m => (r2 m, m, []).
(* move r2, r1 *)
Definition move_r2 (r1 : Z) : ULP unit := fun m => (tt, set_r2 r1 m, []).
Definition stage_rst : ULP unit := fun m => (tt, set_stage 0 m, []).
Definition stage_inc (n : Z) : ULP unit :=
  fun m => (tt, set_stage (w8 (stage_cnt m + n)) m, []).
Definition get_stage : ULP Z := fun m => (stage_cnt m, m, []).
(* WRITE_RTC_REG(RTC_GPIO_OUT_REG, ... + CONFIG_REED_DEBOUNCE_RTC_GPIO_NUM, 1, level)
   under #ifdef CONFIG_REED_DEBOUNCE_OUT *)
Definition debounce_out (c : config) (level : bool) : ULP unit :=
  fun m => (tt, m, if REED_DEBOUNCE_OUT c then [EDbg level] else []).

(** ** The program, block by block *)

Section Engine.

Variable c : config.

(** *** A monitored pin changed *)

(* end_change: jump loop_forever *)
Definition end_change : ULP unit := ret tt.

Definition btn_falling : ULP unit :=
  st WaitBtn (WAIT_BTN_SET c) ;;                    (* set btn wait *)
  end_change.

Definition end_reed0_raising (r1 : Z) : ULP unit :=
  move_r2 r1.                                        (* prev_io = curr_io *)

Definition reed0_raising (r1 : Z) : ULP unit :=
  r0 <- ld WaitReed ;;                               (* check if waiting *)
  if 1 <=? r0 then end_reed0_raising r1              (* jumpr .., 1, ge *)
  else
    st WaitReed (WAIT_REED_SET c) ;;                 (* set wait *)
    debounce_out c true ;;
    stage_inc 1 ;;
    n <- get_stage ;;
    if n <? REED_DIV c then ret tt                   (* jumps loop_forever, .., lt *)
    else
      st Evnt REED_EVNT ;;
      wake ;;
      stage_rst ;;
      end_reed0_raising r1.

Definition end_reed1_raising (r1 : Z) : ULP unit :=
  move_r2 r1.

Definition reed1_raising (r1 : Z) : ULP unit :=
  r0 <- ld WaitReed ;;
  if r0 <? 1 then end_reed1_raising r1               (* not waiting, ignore *)
  else
    st WaitReed 1 ;;                                 (* expire next *)
    end_reed1_raising r1.

Definition end_btn_raising (r1 : Z) : ULP unit :=
  move_r2 r1.

Definition btn_pressed (r1 : Z) : ULP unit :=
  let r0 := Z.land r1 (BTN_RTC_GPIO_MASK c) in       (* mask: buttons *)
  st Btn r0 ;;
  st WaitBtn (WAIT_BTN_SET c) ;;                     (* set btn wait *)
  st Evnt BTN_EVNT ;;
  wake ;;
  end_btn_raising r1.

Definition btn_raising (r1 : Z) : ULP unit :=
  r0 <- ld WaitBtn ;;
  if 1 <=? r0 then end_btn_raising r1                (* button bounce *)
  else btn_pressed r1.

Definition end_rot_raising (r1 : Z) : ULP unit :=
  move_r2 r1.

Definition end_rot_decreasing (r1 : Z) : ULP unit :=
  move_r2 r1.

Definition finalyze_rot (r1 : Z) : ULP unit :=
  st WaitRot (WAIT_ROT_SET c) ;;                     (* set rot wait *)
  end_rot_raising r1.

Definition dec_rot (r1 : Z) : ULP unit :=
  r0 <- ld RotCnt ;;
  st RotCnt (sub16 r0 1) ;;
  finalyze_rot r1.

Definition dec_rot_raise (r1 : Z) : ULP unit :=
  r0 <- ld RotTmp ;;
  if r0 =? 0x07 then dec_rot r1                      (* only detented positions *)
  else end_rot_decreasing r1.

Definition inc_rot (r1 : Z) : ULP unit :=
  r0 <- ld RotCnt ;;
  st RotCnt (add16 r0 1) ;;
  finalyze_rot r1.

Definition inc_rot_raise (r1 : Z) : ULP unit :=
  r0 <- ld RotTmp ;;
  if r0 =? 0x0b then inc_rot r1                      (* only detented positions *)
  else end_rot_raising r1.

(** The index into [st_tbl]: bits 3,2 from the current sample, bits 1,0
    from the previous one.  The first shift count is
    [CONFIG_AB_RTC_A_GPIO_NUM - 2]: for encoder pins from 2 upwards it
    brings the two pins to bits 3,2; for the pins 0 and 1 it is negative,
    and what is proved about the pin levels behind the index is stated for
    pins from 2 upwards only. *)
Definition ab_code (r1 prev : Z) : Z :=
  let r0 := Z.land (rsh r1 (AB_RTC_A_GPIO_NUM c - 2)) 0x000c in
  let r3 := Z.land (rsh prev (AB_RTC_A_GPIO_NUM c)) 0x0003 in
  Z.lor r0 r3.

Definition rot_changed (r1 : Z) : ULP unit :=
  prev <- get_r2 ;;
  let r3 := ab_code r1 prev in
  st RotTmp r3 ;;
  let r0 := nth (Z.to_nat r3) st_tbl 0 in            (* table look-up *)
  if r0 =? 1 then dec_rot_raise r1
  else if r0 =? 2 then inc_rot_raise r1
  else end_rot_raising r1.                           (* invalid transition *)

(** [r0] is [r1 xor r2] on entry. *)
Definition change (r1 r0 : Z) : ULP unit :=
  let r3 := r0 in
  if 1 <=? Z.land (Z.land r3 (IO_REED0_MASK c)) r1 then reed0_raising r1
  else if 1 <=? Z.land (Z.land r3 (IO_REED1_MASK c)) r1 then reed1_raising r1
  else if 1 <=? Z.land r3 (IO_ROT_MASK c) then rot_changed r1
  else if 1 <=? Z.land (Z.land r3 (BTN_RTC_GPIO_MASK c)) r1 then btn_raising r1
  else
    (* must be reed or btn falling *)
    move_r2 r1 ;;
    if 1 <=? Z.land r3 (BTN_RTC_GPIO_MASK c) then btn_falling
    else if 1 <=? Z.land r3 (IO_REED1_MASK c) then end_change
    else
      st WaitReed (WAIT_REED_SET c) ;;               (* set reed wait *)
      end_change.

(** *** No monitored pin changed *)

Definition wait_rot_end : ULP unit := ret tt.

Definition wait_rot : ULP unit :=
  r0 <- ld WaitRot ;;
  if r0 <? 1 then wait_rot_end
  else
    let r0 := sub16 r0 1 in                          (* count down wait *)
    st WaitRot r0 ;;
    if 1 <=? r0 then wait_rot_end                    (* wait not over *)
    else
      st Evnt ROT_EVNT ;;
      wake ;;
      wait_rot_end.

Definition wait_reed_end : ULP unit := ret tt.

(** No jump targets [wait_btn_end]; the block is kept for comparison with
    the source.  [r0] is what the preceding block left. *)
Definition wait_btn_end (r0 : Z) : ULP unit :=
  if 1 <=? r0 then wait_rot
  else debounce_out c false ;; wait_rot.

Definition wait_btn : ULP unit :=
  r0 <- ld WaitBtn ;;
  if r0 <? 1 then wait_rot
  else
    let r0 := sub16 r0 1 in                          (* count down wait *)
    st WaitBtn r0 ;;
    wait_reed_end.                                   (* falls through *)

Definition wait_reed_exp : ULP unit :=
  debounce_out c false ;;
  wait_reed_end.

Definition wait_reed : ULP unit :=
  r0 <- ld WaitReed ;;
  if r0 <? 1 then wait_btn
  else
    let r0 := sub16 r0 1 in                          (* count down *)
    st WaitReed r0 ;;
    if 1 <=? r0 then wait_reed_end                   (* wait not over *)
    else wait_reed_exp.

Definition no_change : ULP unit := wait_reed.

(** *** One pass of the polling loop; [io] is the word READ_RTC_REG returns *)

Definition io_xor (r1 prev : Z) : Z :=
  sub16 (Z.lor r1 prev) (Z.land r1 prev).            (* (r1 or r2) - (r1 and r2) *)

Definition loop_forever (io : Z) : ULP unit :=
  let r1 := Z.land io (IO_USED_MASK c) in            (* mask unused IOs *)
  prev <- get_r2 ;;
  let r0 := io_xor r1 prev in
  if r0 =? 0 then no_change                          (* jump no_change, eq *)
  else change r1 r0.

(** [entry]: the .bss words are zero, the first sample becomes [r2],
    the stage counter is reset. *)
Definition entry (io : Z) : machine :=
  {| r2 := Z.land io (IO_USED_MASK c); stage_cnt := 0;
     evnt := 0; rot_cnt := 0; btn := 0; rot_tmp := 0;
     wait_reed_cnt := 0; wait_rot_cnt := 0; wait_btn_cnt := 0 |}.

Definition tick (io : Z) (m : machine) : machine * list effect :=
  let '(_, m', l) := loop_forever io m in (m', l).

(** The loop over a finite sequence of samples: final state and the log of
    all ticks in order. *)
Fixpoint run (ios : list Z) (m : machine) : machine * list effect :=
  match ios with
  | [] => (m, [])
  | io :: rest =>
      let '(m1, l1) := tick io m in
      let '(m2, l2) := run rest m1 in
      (m2, l1 ++ l2)
  end.

End Engine.

(** ** Words and well-formed states *)

Definition word16 (x : Z) : Prop := 0 <= x < 65536.

(** Every register and variable holds a 16 bit word, the stage counter an
    8 bit one. *)
Definition word_ok (m : machine) : Prop :=
  word16 (r2 m) /\ 0 <= stage_cnt m < 256 /\
  word16 (evnt m) /\ word16 (rot_cnt m) /\ word16 (btn m) /\ word16 (rot_tmp m) /\
  word16 (wait_reed_cnt m) /\ word16 (wait_rot_cnt m) /\ word16 (wait_btn_cnt m).

(** ** Reading a sample pair bit by bit *)

(** Pin [k] is high now and was low. *)
Definition pin_rising (k r1 prev : Z) : bool :=
  Z.testbit r1 k && negb (Z.testbit prev k).

(** The pins of [mask] that are high now and were low. *)
Definition rose (mask r1 prev : Z) : Z :=
  Z.land (Z.land (Z.lxor r1 prev) mask) r1.

(** The pins of [mask] that differ between the two samples. *)
Definition changed (mask r1 prev : Z) : Z :=
  Z.land (Z.lxor r1 prev) mask.

(** The tick is handled by [rot_changed]: no reed pin rose and an encoder
    pin changed. *)
Definition rot_dispatch (c : config) (r1 prev : Z) : bool :=
  negb (pin_rising (REED0_RTC_GPIO_NUM c) r1 prev) &&
  negb (pin_rising (REED1_RTC_GPIO_NUM c) r1 prev) &&
  negb (changed (IO_ROT_MASK c) r1 prev =? 0).

(** The tick is handled by [btn_raising]. *)
Definition btn_dispatch (c : config) (r1 prev : Z) : bool :=
  negb (pin_rising (REED0_RTC_GPIO_NUM c) r1 prev) &&
  negb (pin_rising (REED1_RTC_GPIO_NUM c) r1 prev) &&
  (changed (IO_ROT_MASK c) r1 prev =? 0) &&
  negb (rose (BTN_RTC_GPIO_MASK c) r1 prev =? 0).

(** ** The shared words as the main cores see them *)

Record shared := {
  sh_evnt : Z;
  sh_rot_cnt : Z;
  sh_btn : Z
}.

Definition shared_of (m : machine) : shared :=
  {| sh_evnt := evnt m; sh_rot_cnt := rot_cnt m; sh_btn := btn m |}.

Definition is_shared (v : var) : bool :=
  match v with
  | Evnt | RotCnt | Btn => true
  | _ => false
  end.

Definition apply_effect (e : effect) (s : shared) : shared :=
  match e with
  | EStore Evnt x => {| sh_evnt := x; sh_rot_cnt := sh_rot_cnt s; sh_btn := sh_btn s |}
  | EStore RotCnt x => {| sh_evnt := sh_evnt s; sh_rot_cnt := x; sh_btn := sh_btn s |}
  | EStore Btn x => {| sh_evnt := sh_evnt s; sh_rot_cnt := sh_rot_cnt s; sh_btn := x |}
  | _ => s
  end.

(** The shared words after a log, read from the log alone. *)
Fixpoint replay (l : list effect) (s : shared) : shared :=
  match l with
  | [] => s
  | e :: rest => replay rest (apply_effect e s)
  end.

(** What the shared words hold at each [wake] of a log. *)
Fixpoint snapshots (l : list effect) (s : shared) : list shared :=
  match l with
  | [] => []
  | EWake :: rest => s :: snapshots rest s
  | e :: rest => snapshots rest (apply_effect e s)
  end.

(** The event codes found at the wakes of a log. *)
Definition notifications (l : list effect) (s : shared) : list Z :=
  map sh_evnt (snapshots l s).

Definition count_code (code : Z) (l : list Z) : Z :=
  Z.of_nat (length (filter (Z.eqb code) l)).

(** An effect that leaves the shared words alone and wakes nobody. *)
Definition quiet_effect (e : effect) : bool :=
  match e with
  | EStore v _ => negb (is_shared v)
  | EWake => false
  | EDbg _ => true
  end.

(** Every wake of the log comes directly after a store to [evnt], and only
    quiet effects follow it. *)
Fixpoint wake_ok (last : option effect) (l : list effect) : bool :=
  match l with
  | [] => true
  | EWake :: post =>
      match last with
      | Some (EStore Evnt _) => forallb quiet_effect post
      | _ => false
      end
  | e :: rest => wake_ok (Some e) rest
  end.

(** ** Counting along a run *)

(** The tick takes a rising edge of reed 0 while the reed timer is idle. *)
Definition reed0_accepted (c : config) (io : Z) (m : machine) : bool :=
  pin_rising (REED0_RTC_GPIO_NUM c) (Z.land io (IO_USED_MASK c)) (r2 m) &&
  (wait_reed_cnt m <? 1).

Fixpoint accepted_edges (c : config) (ios : list Z) (m : machine) : Z :=
  match ios with
  | [] => 0
  | io :: rest =>
      (if reed0_accepted c io m then 1 else 0) +
      accepted_edges c rest (fst (tick c io m))
  end.

(** The detent step of a tick: +1, -1, or 0 when the tick is none. *)
Definition detent (c : config) (io : Z) (m : machine) : Z :=
  let r1 := Z.land io (IO_USED_MASK c) in
  if rot_dispatch c r1 (r2 m) then
    if ab_code c r1 (r2 m) =? 0x0b then 1
    else if ab_code c r1 (r2 m) =? 0x07 then -1
    else 0
  else 0.


(** Samples for the default configuration: reed 0 closes, stays closed
    until the reed timer has run out, opens, and stays open as long. *)
Definition reed_pulse : list Z :=
  [0x1; 0x1] ++ repeat 0x1 10 ++ [0x0] ++ repeat 0x0 10.

(** ** The decode table as the specification prints it (section 4.1) *)

Definition st_tbl_spec : list Z :=
  [ 0; 1; 2; 0;
    2; 0; 0; 1;
    1; 1; 0; 0;
    2; 0; 2; 1 ].

(** ** The consumer side *)

(* esp_err.h of the ESP-IDF *)
Definition ESP_OK : Z := 0.
Definition ESP_ERR_TIMEOUT : Z := 0x107.

Record input_event := {
  ev_code : Z;
  ev_rot_cnt : Z;
  ev_btn : Z
}.

(** The first of [n] ticks that wakes the main cores, with the state the
    engine has reached by then; [None] with the state after all the ticks
    that were run when none does. *)
Fixpoint await (c : config) (n : nat) (ios : list Z) (m : machine)
  : option nat * machine :=
  match n, ios with
  | O, _ => (None, m)
  | S _, [] => (None, m)
  | S n', io :: rest =>
      let '(m1, l) := tick c io m in
      if existsb (fun e => match e with EWake => true | _ => false end) l
      then (Some O, m1)
      else let '(r, m2) := await c n' rest m1 in (option_map S r, m2)
  end.

(** Modelled from the spec: the body of [key_rot_read], which
    keypad_rotdecode.h only declares.  The caller waits for a notification
    for at most [timeout] ticks of the engine.  On a notification it reads
    the shared words, clears the event register and returns the event; on
    timeout it returns the timeout result and writes nothing.  The period
    the header announces is left out. *)
Definition key_rot_read (c : config) (timeout : nat) (ios : list Z) (m : machine)
  : Z * option input_event * machine :=
  match await c timeout ios m with
  | (Some _, m1) =>
      (ESP_OK,
       Some {| ev_code := evnt m1; ev_rot_cnt := rot_cnt m1; ev_btn := btn m1 |},
       store Evnt 0 m1)
  | (None, m1) => (ESP_ERR_TIMEOUT, None, m1)
  end.

(** ** States and samples of the wider properties *)

(** What holds of every state the engine reaches from [entry]. *)
Definition engine_inv (c : config) (m : machine) : Prop :=
  word_ok m /\
  Z.land (r2 m) (IO_USED_MASK c) = r2 m /\
  stage_cnt m < REED_DIV c /\
  wait_reed_cnt m <= WAIT_REED_SET c /\
  wait_btn_cnt m <= WAIT_BTN_SET c /\
  wait_rot_cnt m <= WAIT_ROT_SET c /\
  Z.land (btn m) (BTN_RTC_GPIO_MASK c) = btn m /\
  0 <= evnt m <= 3 /\
  rot_tmp m < 16.

(** The samples of [ios] show the monitored pins as [m] last saw them. *)
Definition quiet_for (c : config) (m : machine) (ios : list Z) : Prop :=
  Forall (fun io => Z.land io (IO_USED_MASK c) = r2 m) ios.

(** The tick takes a rising button edge while the button timer is idle. *)
Definition btn_accepted (c : config) (io : Z) (m : machine) : bool :=
  btn_dispatch c (Z.land io (IO_USED_MASK c)) (r2 m) && (wait_btn_cnt m <? 1).

(** No pin changed, only the rotary timer runs, and it stands at 1. *)
Definition rot_expiring (c : config) (io : Z) (m : machine) : bool :=
  (Z.land io (IO_USED_MASK c) =? r2 m) &&
  (wait_reed_cnt m <? 1) && (wait_btn_cnt m <? 1) && (wait_rot_cnt m =? 1).

(** A falling edge is what is left for [change]: no reed pin rose, no
    encoder pin changed, no button rose, and yet the samples differ. *)
Definition falling_dispatch (c : config) (r1 prev : Z) : bool :=
  negb (r1 =? prev) &&
  negb (pin_rising (REED0_RTC_GPIO_NUM c) r1 prev) &&
  negb (pin_rising (REED1_RTC_GPIO_NUM c) r1 prev) &&
  (changed (IO_ROT_MASK c) r1 prev =? 0) &&
  (rose (BTN_RTC_GPIO_MASK c) r1 prev =? 0).

(** The table index for given levels of the encoder pins: [a1], [a0] the
    higher and the lower pin now, [p1], [p0] the same pins before. *)
Definition code_of_levels (a1 a0 p1 p0 : bool) : Z :=
  8 * Z.b2z a1 + 4 * Z.b2z a0 + 2 * Z.b2z p1 + Z.b2z p0.

(** The levels driven on the debug pin, in order. *)
Definition dbg_levels (l : list effect) : list bool :=
  flat_map (fun e => match e with EDbg level => [level] | _ => [] end) l.

(** Direction entries of [st_tbl] exchanged. *)
Definition opposite (d : Z) : Z :=
  if d =? 1 then 2 else if d =? 2 then 1 else d.

(** A block run from a state: the state it leaves and its log. *)
Definition block (b : ULP unit) (m : machine) : machine * list effect :=
  let '(_, m', l) := b m in (m', l).

(** ** Symbolic execution of a tick *)

Ltac ulp_unfold :=
  cbv [tick loop_forever change no_change
       wait_reed wait_reed_exp wait_reed_end wait_btn wait_rot wait_rot_end
       reed0_raising end_reed0_raising reed1_raising end_reed1_raising
       btn_raising btn_pressed end_btn_raising btn_falling end_change
       rot_changed dec_rot_raise inc_rot_raise dec_rot inc_rot finalyze_rot
       end_rot_raising end_rot_decreasing
       bind ret ld st wake get_r2 move_r2 stage_rst stage_inc get_stage
       debounce_out].

Ltac ulp_simpl :=
  cbn [r2 stage_cnt evnt rot_cnt btn rot_tmp wait_reed_cnt wait_rot_cnt
       wait_btn_cnt load store set_r2 set_stage fst snd app].

Ltac ulp_case :=
  match goal with
  | |- context [if ?b then _ else _] => destruct b eqn:?
  end.

Ltac ulp_exec := ulp_unfold; ulp_simpl; repeat (ulp_case; ulp_simpl).

(** ** Words: ranges and bits *)

Lemma word16_land_r a b : word16 b -> word16 (Z.land a b).
Proof.
  unfold word16; intros Hb.
  assert (E : Z.land a b = Z.land a b mod 2 ^ 16).
  { rewrite <- Z.land_ones by lia. rewrite <- Z.land_assoc.
    rewrite (Z.land_ones b) by lia. rewrite (Z.mod_small b) by (simpl; lia). reflexivity. }
  rewrite E. apply Z.mod_pos_bound. reflexivity.
Qed.

Lemma word16_iff_land x : word16 x <-> Z.land x 65535 = x.
Proof.
  change 65535 with (Z.ones 16). rewrite Z.land_ones by lia. unfold word16.
  split; intros H.
  - apply Z.mod_small. simpl; lia.
  - rewrite <- H. apply Z.mod_pos_bound. reflexivity.
Qed.

Lemma word16_lor a b : word16 a -> word16 b -> word16 (Z.lor a b).
Proof.
  rewrite !word16_iff_land. intros Ha Hb.
  rewrite Z.land_lor_distr_l. congruence.
Qed.

Lemma word16_lxor a b : word16 a -> word16 b -> word16 (Z.lxor a b).
Proof.
  rewrite !word16_iff_land. intros Ha Hb.
  rewrite <- Ha at 2. rewrite <- Hb at 2.
  apply Z.bits_inj'. intros i _.
  rewrite Z.land_spec, !Z.lxor_spec, !Z.land_spec.
  destruct (Z.testbit a i), (Z.testbit b i), (Z.testbit 65535 i); reflexivity.
Qed.

Lemma io_xor_lxor a b : word16 a -> word16 b -> io_xor a b = Z.lxor a b.
Proof.
  intros Ha Hb. unfold io_xor, sub16, w16. rewrite Z.sub_lor_land.
  apply Z.mod_small. apply word16_lxor; assumption.
Qed.

Lemma land_pow2 x k : 0 <= k -> Z.land x (2 ^ k) = if Z.testbit x k then 2 ^ k else 0.
Proof.
  intros Hk. apply Z.bits_inj'. intros i Hi.
  rewrite Z.land_spec, Z.pow2_bits_eqb by assumption.
  destruct (Z.eqb_spec k i) as [->|Hne].
  - destruct (Z.testbit x i) eqn:E; simpl.
    + rewrite Z.pow2_bits_true by assumption. reflexivity.
    + rewrite Z.bits_0. reflexivity.
  - rewrite andb_false_r. destruct (Z.testbit x k).
    + rewrite Z.pow2_bits_false by assumption. reflexivity.
    + rewrite Z.bits_0. reflexivity.
Qed.

Lemma word16_w16 x : word16 (w16 x).
Proof. unfold word16, w16. apply Z.mod_pos_bound. reflexivity. Qed.

Lemma masks_word16 c : config_ok c ->
  word16 (IO_REED0_MASK c) /\ word16 (IO_REED1_MASK c) /\ word16 (IO_ROT_MASK c) /\
  word16 (BTN_RTC_GPIO_MASK c) /\ word16 (IO_USED_MASK c).
Proof.
  intros (H0 & H1 & HA & HB & _).
  assert (P1 : forall k, 0 <= k <= 14 -> word16 (Z.shiftl 1 k)).
  { intros k Hk. rewrite Z.shiftl_1_l. unfold word16. split; [apply Z.pow_nonneg; lia|].
    apply Z.lt_le_trans with (2 ^ 15); [apply Z.pow_lt_mono_r; lia | simpl; lia]. }
  assert (P3 : forall k, 0 <= k <= 14 -> word16 (Z.shiftl 3 k)).
  { intros k Hk. rewrite Z.shiftl_mul_pow2 by lia. unfold word16.
    assert (0 < 2 ^ k) by (apply Z.pow_pos_nonneg; lia).
    assert (2 ^ k <= 2 ^ 14) by (apply Z.pow_le_mono_r; lia).
    change (2 ^ 14) with 16384 in *. lia. }
  assert (word16 (BTN_RTC_GPIO_MASK c)) by (unfold word16; lia).
  unfold IO_USED_MASK, IO_REED0_MASK, IO_REED1_MASK, IO_ROT_MASK.
  repeat split; try apply P1; try apply P3; try lia;
    repeat apply word16_lor; auto; try apply P1; try apply P3; auto; unfold word16 in *; lia.
Qed.

Lemma ab_code_range c r1 prev : 0 <= ab_code c r1 prev < 16.
Proof.
  unfold ab_code.
  generalize (rsh r1 (AB_RTC_A_GPIO_NUM c - 2)), (rsh prev (AB_RTC_A_GPIO_NUM c)).
  intros x y.
  assert (H1 : Z.land (Z.lor (Z.land x 12) (Z.land y 3)) (Z.ones 4) =
               Z.lor (Z.land x 12) (Z.land y 3)).
  { rewrite Z.land_lor_distr_l, <- !Z.land_assoc. reflexivity. }
  rewrite Z.land_ones in H1 by lia. rewrite <- H1.
  apply Z.mod_pos_bound. reflexivity.
Qed.

Lemma tick_word_ok c io m :
  config_ok c -> word_ok m -> word_ok (fst (tick c io m)).
Proof.
  intros Hc Hm.
  destruct (masks_word16 c Hc) as (M0 & M1 & MR & MB & MU).
  destruct Hc as (_ & _ & _ & _ & HWR & HWO & HWB & HD & _).
  destruct Hm as (Hr2 & Hst & He & Hrc & Hb & Hrt & Hwr & Hwo & Hwb).
  pose proof (word16_land_r io _ MU) as Hr1.
  pose proof (ab_code_range c (Z.land io (IO_USED_MASK c)) (r2 m)) as Hab.
  pose proof (word16_land_r (Z.land io (IO_USED_MASK c)) _ MB) as Hbt.
  unfold word_ok.
  ulp_exec;
    repeat split; auto using word16_w16; try (unfold word16, w8, REED_EVNT, ROT_EVNT, BTN_EVNT in *; lia);
    try (unfold w8; apply Z.mod_pos_bound; reflexivity).
Qed.

(** ** The tests of [change], bit by bit *)

Lemma xor_test r1 prev :
  word16 r1 -> word16 prev -> (io_xor r1 prev =? 0) = (r1 =? prev).
Proof.
  intros H1 H2. rewrite io_xor_lxor by assumption.
  destruct (Z.eqb_spec r1 prev) as [->|Hne].
  - rewrite Z.lxor_nilpotent. reflexivity.
  - apply Z.eqb_neq. intros E. apply Z.lxor_eq in E. contradiction.
Qed.

Lemma rising_test k r1 prev :
  0 <= k -> word16 r1 -> word16 prev ->
  (1 <=? Z.land (Z.land (io_xor r1 prev) (Z.shiftl 1 k)) r1) = pin_rising k r1 prev.
Proof.
  intros Hk H1 H2. rewrite io_xor_lxor by assumption.
  rewrite Z.shiftl_1_l, land_pow2, Z.lxor_spec by assumption.
  unfold pin_rising.
  assert (1 <= 2 ^ k) by (pose proof (Z.pow_pos_nonneg 2 k); lia).
  destruct (Z.testbit r1 k) eqn:E1, (Z.testbit prev k) eqn:E2; simpl;
    try (rewrite Z.land_comm, land_pow2, E1 by assumption);
    try rewrite Z.land_0_l; apply Z.leb_le || apply Z.leb_gt; lia.
Qed.

Lemma changed_test mask r1 prev :
  0 <= mask -> word16 r1 -> word16 prev ->
  (1 <=? Z.land (io_xor r1 prev) mask) = negb (changed mask r1 prev =? 0).
Proof.
  intros Hm H1 H2. rewrite io_xor_lxor by assumption. unfold changed.
  assert (0 <= Z.land (Z.lxor r1 prev) mask) by (apply Z.land_nonneg; auto).
  destruct (Z.eqb_spec (Z.land (Z.lxor r1 prev) mask) 0); simpl;
    apply Z.leb_le || apply Z.leb_gt; lia.
Qed.

Lemma rose_test mask r1 prev :
  word16 r1 -> word16 prev ->
  (1 <=? Z.land (Z.land (io_xor r1 prev) mask) r1) = negb (rose mask r1 prev =? 0).
Proof.
  intros H1 H2. rewrite io_xor_lxor by assumption. unfold rose.
  assert (0 <= Z.land (Z.land (Z.lxor r1 prev) mask) r1)
    by (apply Z.land_nonneg; right; apply H1).
  destruct (Z.eqb_spec (Z.land (Z.land (Z.lxor r1 prev) mask) r1) 0); simpl;
    apply Z.leb_le || apply Z.leb_gt; lia.
Qed.

Lemma pin_rising_neq k r1 prev : pin_rising k r1 prev = true -> r1 <> prev.
Proof.
  unfold pin_rising. intros H E. subst.
  destruct (Z.testbit prev k); discriminate.
Qed.

Lemma changed_neq mask r1 prev : changed mask r1 prev <> 0 -> r1 <> prev.
Proof.
  unfold changed. intros H E. subst. rewrite Z.lxor_nilpotent in H. auto.
Qed.

Lemma rose_neq mask r1 prev : rose mask r1 prev <> 0 -> r1 <> prev.
Proof.
  unfold rose. intros H E. subst. rewrite Z.lxor_nilpotent in H. auto.
Qed.

Section Dispatch.

Variable c : config.
Variable io : Z.
Variable m : machine.
Hypothesis Hc : config_ok c.
Hypothesis Hm : word_ok m.

Let r1 := Z.land io (IO_USED_MASK c).

Lemma r1_word16 : word16 r1.
Proof. apply word16_land_r. apply (masks_word16 c Hc). Qed.

Lemma r2_word16 : word16 (r2 m).
Proof. apply Hm. Qed.

Lemma tick_tests :
  tick c io m =
  block (if r1 =? r2 m then no_change c
         else if pin_rising (REED0_RTC_GPIO_NUM c) r1 (r2 m) then reed0_raising c r1
         else if pin_rising (REED1_RTC_GPIO_NUM c) r1 (r2 m) then reed1_raising r1
         else if negb (changed (IO_ROT_MASK c) r1 (r2 m) =? 0) then rot_changed c r1
         else if negb (rose (BTN_RTC_GPIO_MASK c) r1 (r2 m) =? 0) then btn_raising c r1
         else
           (move_r2 r1 ;;
            if negb (changed (BTN_RTC_GPIO_MASK c) r1 (r2 m) =? 0) then btn_falling c
            else if negb (changed (IO_REED1_MASK c) r1 (r2 m) =? 0) then end_change
            else st WaitReed (WAIT_REED_SET c) ;; end_change)) m.
Proof.
  pose proof r1_word16 as W1. pose proof r2_word16 as W2.
  destruct (masks_word16 c Hc) as (M0 & M1 & MR & MB & MU).
  destruct Hc as (H0 & H1 & _).
  rewrite <- (xor_test r1 (r2 m)) by assumption.
  rewrite <- !(rising_test _ r1 (r2 m)) by (assumption || lia).
  rewrite <- !(changed_test _ r1 (r2 m)) by (assumption || apply MR || apply MB || apply M1).
  rewrite <- (rose_test _ r1 (r2 m)) by assumption.
  unfold block. ulp_unfold. unfold IO_REED0_MASK, IO_REED1_MASK, r1. ulp_simpl.
  repeat (ulp_case; ulp_simpl); reflexivity || congruence.
Qed.

End Dispatch.

(** ** Reed channel 1 *)

(** C5, as the specification states it, fails: reed 1 rises while the reed
    timer is idle, and the timer is not set to 1; it stays idle and nothing
    is stored. *)
Lemma reed1_rising_idle_timer_stays_idle :
  let c := default_config in
  let m := entry c 0 in
  pin_rising (REED1_RTC_GPIO_NUM c) (Z.land 0x200 (IO_USED_MASK c)) (r2 m) = true /\
  wait_reed_cnt m = 0 /\
  wait_reed_cnt (fst (tick c 0x200 m)) <> 1 /\
  tick c 0x200 m = (set_r2 0x200 m, []).
Proof. vm_compute. repeat split; reflexivity || discriminate. Qed.

(** C5, amended: a rising edge of reed channel 1 sets the reed timer to 1
    (it expires at its next count down) exactly when that timer is waiting;
    when the timer is idle the edge only advances the previous sample.  In
    neither case does channel 1 store the full wait [WAIT_REED_SET]. *)
Theorem reed1_rising_cuts_running_wait c io m :
  config_ok c -> word_ok m ->
  pin_rising (REED0_RTC_GPIO_NUM c) (Z.land io (IO_USED_MASK c)) (r2 m) = false ->
  pin_rising (REED1_RTC_GPIO_NUM c) (Z.land io (IO_USED_MASK c)) (r2 m) = true ->
  tick c io m =
    if 1 <=? wait_reed_cnt m
    then (set_r2 (Z.land io (IO_USED_MASK c)) (store WaitReed 1 m), [EStore WaitReed 1])
    else (set_r2 (Z.land io (IO_USED_MASK c)) m, []).
Proof.
  intros Hc Hm H0 H1.
  rewrite tick_tests by assumption. rewrite H0, H1.
  apply pin_rising_neq in H1. apply Z.eqb_neq in H1. rewrite H1.
  unfold block. ulp_exec; reflexivity || lia.
Qed.

Lemma reed1_rising_cuts_running_wait_witness :
  let c := default_config in
  let m := fst (run c [0x1; 0x1] (entry c 0)) in
  tick c 0x201 m = (set_r2 0x201 (store WaitReed 1 m), [EStore WaitReed 1]).
Proof.
  apply (reed1_rising_cuts_running_wait default_config 0x201
           (fst (run default_config [0x1; 0x1] (entry default_config 0)))).
  - unfold config_ok; simpl; lia.
  - unfold word_ok, word16; vm_compute; intuition discriminate.
  - reflexivity.
  - reflexivity.
Defined.

(** ** Bounce suppression *)

(** C8, as the specification states it, fails for the rotary class and for
    reed channel 1.  A detent step taken while the rotary timer is still
    running is counted and arms the timer again; a rising edge of reed 1
    while the reed timer is running rewrites that timer. *)
Lemma second_edge_while_waiting_changes_state :
  let c := default_config in
  let m := fst (run c [0x10; 0x18] (entry c 0x18)) in
  let m' := fst (run c [0x1; 0x1] (entry c 0)) in
  (1 <= wait_rot_cnt m /\ detent c 0x10 m = 1 /\
   rot_cnt m = 1 /\ rot_cnt (fst (tick c 0x10 m)) = 2) /\
  (1 <= wait_reed_cnt m' /\
   pin_rising (REED1_RTC_GPIO_NUM c) (Z.land 0x201 (IO_USED_MASK c)) (r2 m') = true /\
   wait_reed_cnt m' = 10 /\ wait_reed_cnt (fst (tick c 0x201 m')) = 1).
Proof. vm_compute. repeat split; reflexivity || discriminate. Qed.

(** C8, amended: for reed channel 0 and for the buttons, a rising edge that
    arrives while the timer of its class is running changes nothing but the
    previous sample: the shared words, the three timers and the trigger
    counter keep their values and nothing is stored or signalled.  (The
    rotary class has no such test, and reed channel 1 cuts a running reed
    wait short.) *)
Theorem bounce_only_advances_previous_sample c io m :
  config_ok c -> word_ok m ->
  (pin_rising (REED0_RTC_GPIO_NUM c) (Z.land io (IO_USED_MASK c)) (r2 m) = true /\
   1 <= wait_reed_cnt m) \/
  (btn_dispatch c (Z.land io (IO_USED_MASK c)) (r2 m) = true /\
   1 <= wait_btn_cnt m) ->
  tick c io m = (set_r2 (Z.land io (IO_USED_MASK c)) m, []).
Proof.
  intros Hc Hm H.
  rewrite tick_tests by assumption.
  destruct H as [[H0 Hw] | [Hb Hw]].
  - rewrite H0. apply pin_rising_neq in H0. apply Z.eqb_neq in H0. rewrite H0.
    unfold block. ulp_exec; reflexivity || lia.
  - unfold btn_dispatch in Hb.
    apply andb_prop in Hb. destruct Hb as [Hb Hr].
    apply andb_prop in Hb. destruct Hb as [Hb Ha].
    apply andb_prop in Hb. destruct Hb as [H0 H1].
    apply negb_true_iff in H0, H1. rewrite H0, H1, Ha, Hr. simpl negb.
    assert (Hne : (Z.land io (IO_USED_MASK c) =? r2 m) = false).
    { apply Z.eqb_neq. apply (rose_neq (BTN_RTC_GPIO_MASK c)).
      apply negb_true_iff in Hr. apply Z.eqb_neq in Hr. exact Hr. }
    rewrite Hne.
    unfold block. ulp_exec; reflexivity || lia.
Qed.

Lemma bounce_only_advances_previous_sample_witness :
  let c := default_config in
  let m := fst (run c [0x20; 0x20; 0x0] (entry c 0)) in
  tick c 0x20 m = (set_r2 0x20 m, []).
Proof.
  apply (bounce_only_advances_previous_sample default_config 0x20
           (fst (run default_config [0x20; 0x20; 0x0] (entry default_config 0)))).
  - unfold config_ok; simpl; lia.
  - unfold word_ok, word16; vm_compute; intuition discriminate.
  - right. split; [reflexivity | vm_compute; discriminate].
Defined.

(** ** The rotary decoder *)

(** Every tick moves the rotation counter by its detent step, in 16 bit
    arithmetic, and by nothing else. *)
Lemma tick_rot_cnt c io m :
  config_ok c -> word_ok m ->
  rot_cnt (fst (tick c io m)) = w16 (rot_cnt m + detent c io m).
Proof.
  intros Hc Hm.
  assert (Hid : rot_cnt m = w16 (rot_cnt m + 0)).
  { rewrite Z.add_0_r. unfold w16. symmetry. apply Z.mod_small. apply Hm. }
  rewrite tick_tests by assumption. unfold detent, rot_dispatch.
  destruct (Z.eqb_spec (Z.land io (IO_USED_MASK c)) (r2 m)) as [E|E].
  - rewrite E. unfold changed, pin_rising. rewrite Z.lxor_nilpotent, Z.land_0_l.
    destruct (Z.testbit (r2 m) (REED0_RTC_GPIO_NUM c)),
             (Z.testbit (r2 m) (REED1_RTC_GPIO_NUM c)); cbn [andb negb Z.eqb];
      unfold block; ulp_exec; exact Hid.
  - pose proof (ab_code_range c (Z.land io (IO_USED_MASK c)) (r2 m)) as Hr.
    remember (ab_code c (Z.land io (IO_USED_MASK c)) (r2 m)) as code eqn:Ecode.
    destruct (pin_rising (REED0_RTC_GPIO_NUM c) _ _);
      [cbn [andb negb]; unfold block; ulp_exec; exact Hid|].
    destruct (pin_rising (REED1_RTC_GPIO_NUM c) _ _);
      [cbn [andb negb]; unfold block; ulp_exec; exact Hid|].
    destruct (changed (IO_ROT_MASK c) _ _ =? 0); cbn [andb negb].
    + unfold block; ulp_exec; exact Hid.
    + unfold block. ulp_unfold. ulp_simpl. rewrite <- Ecode.
      assert (Hcases : code = 0 \/ code = 1 \/ code = 2 \/ code = 3 \/ code = 4 \/
                       code = 5 \/ code = 6 \/ code = 7 \/ code = 8 \/ code = 9 \/
                       code = 10 \/ code = 11 \/ code = 12 \/ code = 13 \/
                       code = 14 \/ code = 15) by lia.
      clear Ecode Hr.
      repeat (destruct Hcases as [-> | Hcases]); try subst code;
        cbn; unfold add16, sub16; try exact Hid; reflexivity.
Qed.

(** Every transition code is produced by some pair of samples. *)
Lemma ab_code_onto c code :
  2 <= AB_RTC_A_GPIO_NUM c -> 0 <= code < 16 ->
  ab_code c (Z.shiftl (code / 4) (AB_RTC_A_GPIO_NUM c))
            (Z.shiftl (code mod 4) (AB_RTC_A_GPIO_NUM c)) = code.
Proof.
  intros HA Hcode. unfold ab_code, rsh.
  rewrite !(proj2 (Z.ltb_ge _ 0)) by lia.
  rewrite Z.shiftr_shiftl_l by lia.
  replace (AB_RTC_A_GPIO_NUM c - (AB_RTC_A_GPIO_NUM c - 2)) with 2 by lia.
  rewrite Z.shiftr_shiftl_l by lia. rewrite Z.sub_diag.
  assert (Hcases : code = 0 \/ code = 1 \/ code = 2 \/ code = 3 \/ code = 4 \/
                   code = 5 \/ code = 6 \/ code = 7 \/ code = 8 \/ code = 9 \/
                   code = 10 \/ code = 11 \/ code = 12 \/ code = 13 \/
                   code = 14 \/ code = 15) by lia.
  clear Hcode.
  repeat (destruct Hcases as [-> | Hcases]); try subst code; reflexivity.
Qed.

(** C2, as the specification states it, fails: the table of section 4.1 is
    not [st_tbl].  The two differ at code 1001 and from code 1011 on, and
    the printed table has no direction at 0x0B, the code of the increment
    step. *)
Lemma st_tbl_is_not_the_printed_table :
  nth (Z.to_nat 0x09) st_tbl 0 = 0 /\ nth (Z.to_nat 0x09) st_tbl_spec 0 = 1 /\
  nth (Z.to_nat 0x0b) st_tbl 0 = 2 /\ nth (Z.to_nat 0x0b) st_tbl_spec 0 = 0 /\
  ~ (forall code, 0 <= code < 16 ->
       nth (Z.to_nat code) st_tbl 0 = nth (Z.to_nat code) st_tbl_spec 0).
Proof.
  repeat split; try reflexivity.
  intros H. specialize (H 9 ltac:(lia)). discriminate H.
Qed.

(** C2, amended: for each of the 16 transition codes the table yields
    0 1 2 0 2 0 0 1 1 0 0 2 0 2 1 0 (codes 0000 to 1111), and [rot_changed]
    changes the rotation counter for the codes 0x0B and 0x07 only: by +1 at
    0x0B and by -1 at 0x07, in 16 bit arithmetic.  No other handler changes
    the counter: over a whole tick it moves by the detent step of the
    tick. *)
Theorem rot_changed_counts_detent_codes_only c r1 m code :
  ab_code c r1 (r2 m) = code ->
  0 <= code < 16 /\
  nth (Z.to_nat code) st_tbl 0 =
    nth (Z.to_nat code) [0; 1; 2; 0; 2; 0; 0; 1; 1; 0; 0; 2; 0; 2; 1; 0] 0 /\
  rot_cnt (fst (block (rot_changed c r1) m)) =
    (if code =? 0x0b then w16 (rot_cnt m + 1)
     else if code =? 0x07 then w16 (rot_cnt m - 1)
     else rot_cnt m) /\
  (forall io, config_ok c -> word_ok m ->
     rot_cnt (fst (tick c io m)) = w16 (rot_cnt m + detent c io m)).
Proof.
  intros Ecode.
  pose proof (ab_code_range c r1 (r2 m)) as Hr. rewrite Ecode in Hr.
  split; [exact Hr|]. split; [reflexivity|].
  split; [|intros io Hc Hm; apply tick_rot_cnt; assumption].
  unfold block. ulp_unfold. ulp_simpl. rewrite Ecode.
  assert (Hcases : code = 0 \/ code = 1 \/ code = 2 \/ code = 3 \/ code = 4 \/
                   code = 5 \/ code = 6 \/ code = 7 \/ code = 8 \/ code = 9 \/
                   code = 10 \/ code = 11 \/ code = 12 \/ code = 13 \/
                   code = 14 \/ code = 15) by lia.
  clear Ecode Hr.
  repeat (destruct Hcases as [-> | Hcases]); try subst code; reflexivity.
Qed.

Lemma rot_changed_counts_detent_codes_only_witness :
  let c := default_config in
  let m := entry c 0x18 in
  0 <= 0x0b < 16 /\
  nth (Z.to_nat 0x0b) st_tbl 0 = 2 /\
  rot_cnt (fst (block (rot_changed c 0x10) m)) = 1.
Proof.
  destruct (rot_changed_counts_detent_codes_only default_config 0x10
              (entry default_config 0x18) 0x0b eq_refl) as (H1 & H2 & H3 & _).
  split; [exact H1|]. split; [exact H2 | exact H3].
Defined.

(** C1, evaluated on the engine with the default configuration
    (ROT_CNT_MAX = 19).  Nineteen increment steps bring the counter to
    ROT_CNT_MAX; the twentieth stores 20, not 0.  A decrement step at 0
    stores 65535, not ROT_CNT_MAX. *)
Theorem rot_cnt_runs_past_ROT_CNT_MAX :
  let c := default_config in
  let m := fst (run c (concat (repeat [0x10; 0x18] 19)) (entry c 0x18)) in
  rot_cnt m = ROT_CNT_MAX c /\
  detent c 0x10 m = 1 /\
  rot_cnt (fst (tick c 0x10 m)) = 20 /\
  rot_cnt (entry c 0x18) = 0 /\
  detent c 0x08 (entry c 0x18) = -1 /\
  rot_cnt (fst (tick c 0x08 (entry c 0x18))) = 65535.
Proof. vm_compute. repeat split; reflexivity. Qed.

(** C4, as the specification states it, fails: the codes of the engine are
    not the constants of the header.  A button press stores 3 in [evnt]
    where the header has EVNT_BTN_PRSS = 1; the expiry of the rotary timer
    stores 2 where the header has EVNT_ROT = 3; the value 1 of EVNT_BTN_PRSS
    is what the engine stores for the reed contact. *)
Theorem engine_event_codes_differ_from_header :
  let c := default_config in
  let pressed := tick c 0x20 (entry c 0) in
  let rotated := run c (0x10 :: repeat 0x10 500) (entry c 0x18) in
  let reed := run c (concat (repeat reed_pulse 5)) (entry c 0) in
  (notifications (snd pressed) (shared_of (entry c 0)) = [BTN_EVNT] /\
   evnt (fst pressed) = 3 /\ evnt (fst pressed) <> EVNT_BTN_PRSS) /\
  (notifications (snd rotated) (shared_of (entry c 0x18)) = [ROT_EVNT] /\
   evnt (fst rotated) = 2 /\ evnt (fst rotated) <> EVNT_ROT) /\
  (notifications (snd reed) (shared_of (entry c 0)) = [REED_EVNT] /\
   evnt (fst reed) = EVNT_BTN_PRSS).
Proof. vm_compute. repeat split; reflexivity || discriminate. Qed.

(** ** Logs and the shared words *)

Lemma replay_app l1 l2 s : replay (l1 ++ l2) s = replay l2 (replay l1 s).
Proof. revert s. induction l1 as [|e l1 IH]; intros s; simpl; [reflexivity | apply IH]. Qed.

Lemma snapshots_app l1 l2 s :
  snapshots (l1 ++ l2) s = snapshots l1 s ++ snapshots l2 (replay l1 s).
Proof.
  revert s. induction l1 as [|e l1 IH]; intros s; [reflexivity|].
  destruct e as [v x| |lv]; simpl; rewrite IH; reflexivity.
Qed.

Lemma notifications_app l1 l2 s :
  notifications (l1 ++ l2) s = notifications l1 s ++ notifications l2 (replay l1 s).
Proof. unfold notifications. rewrite snapshots_app, map_app. reflexivity. Qed.

Lemma count_code_app code l1 l2 :
  count_code code (l1 ++ l2) = count_code code l1 + count_code code l2.
Proof. unfold count_code. rewrite filter_app, length_app. lia. Qed.

(** The log of a tick accounts for every change of the shared words. *)
Lemma tick_replay c io m :
  replay (snd (tick c io m)) (shared_of m) = shared_of (fst (tick c io m)).
Proof. ulp_exec; reflexivity. Qed.

Lemma run_cons c io ios m :
  run c (io :: ios) m =
  (fst (run c ios (fst (tick c io m))),
   snd (tick c io m) ++ snd (run c ios (fst (tick c io m)))).
Proof.
  simpl. destruct (tick c io m) as [m1 l1]. simpl.
  destruct (run c ios m1) as [m2 l2]. reflexivity.
Qed.


Lemma run_replay c ios m :
  replay (snd (run c ios m)) (shared_of m) = shared_of (fst (run c ios m)).
Proof.
  revert m. induction ios as [|io ios IH]; intros m; [reflexivity|].
  rewrite run_cons. simpl. rewrite replay_app, tick_replay. apply IH.
Qed.

Lemma run_word_ok c ios m :
  config_ok c -> word_ok m -> word_ok (fst (run c ios m)).
Proof.
  intros Hc. revert m. induction ios as [|io ios IH]; intros m Hm; [exact Hm|].
  rewrite run_cons. simpl. apply IH. apply tick_word_ok; assumption.
Qed.

Lemma entry_word_ok c io : config_ok c -> word_ok (entry c io).
Proof.
  intros Hc. unfold word_ok, entry; simpl.
  repeat split; try lia.
  all: apply (word16_land_r io (IO_USED_MASK c)); apply (masks_word16 c Hc).
Qed.

(** ** Store, then wake *)

Lemma replay_quiet l s : forallb quiet_effect l = true -> replay l s = s.
Proof.
  revert s. induction l as [|e l IH]; intros s H; [reflexivity|].
  simpl in H. apply andb_prop in H. destruct H as [He Hl].
  simpl. rewrite IH by assumption.
  destruct e as [[] x| |lv]; simpl in *; congruence.
Qed.

Lemma wake_ok_split last l pre post :
  wake_ok last l = true -> l = pre ++ EWake :: post ->
  (match pre with
   | [] => exists code, last = Some (EStore Evnt code)
   | _ => exists pre' code, pre = pre' ++ [EStore Evnt code]
   end) /\
  forallb quiet_effect post = true.
Proof.
  revert last pre. induction l as [|e l IH]; intros last pre H E.
  - destruct pre; discriminate E.
  - destruct pre as [|p pre].
    + simpl in E. injection E as -> ->. simpl in H.
      destruct last as [[[] x| |]|]; try discriminate H.
      split; [eexists; reflexivity | exact H].
    + simpl in E. injection E as -> ->.
      assert (H' : wake_ok (Some p) (pre ++ EWake :: post) = true).
      { destruct p as [v x| |lv]; simpl in H; try exact H.
        (* a wake as [p]: the rest is quiet and cannot hold another wake *)
        destruct last as [[[] y| |]|]; try discriminate H.
        rewrite forallb_app in H. apply andb_prop in H. destruct H as [_ H].
        simpl in H. discriminate H. }
      destruct (IH (Some p) pre H' eq_refl) as [Hpre Hpost].
      split; [|exact Hpost].
      destruct pre as [|q pre'].
      * destruct Hpre as [code Hc]. injection Hc as ->. exists [], code. reflexivity.
      * destruct Hpre as (pre'' & code & Hc). exists (p :: pre''), code.
        rewrite Hc. reflexivity.
Qed.

Lemma tick_wake_ok c io m : wake_ok None (snd (tick c io m)) = true.
Proof. ulp_exec; reflexivity. Qed.

(** C7: in every tick that wakes the main cores, the wake comes directly
    after the store of the event code; every store to a shared word of that
    tick is the event code store or comes before it; after the wake the
    tick stores to no shared word and wakes nobody again.  So the shared
    words at the moment of the wake are those the tick leaves behind. *)
Theorem shared_words_written_before_wake c io m pre post :
  snd (tick c io m) = pre ++ EWake :: post ->
  (exists pre' code, pre = pre' ++ [EStore Evnt code]) /\
  (forall v x, In (EStore v x) (snd (tick c io m)) -> is_shared v = true ->
               In (EStore v x) pre) /\
  (forall v x, In (EStore v x) post -> is_shared v = false) /\
  ~ In EWake post /\
  replay pre (shared_of m) = shared_of (fst (tick c io m)).
Proof.
  intros E.
  destruct (wake_ok_split None _ pre post (tick_wake_ok c io m) E) as [Hpre Hpost].
  assert (Hq : forall e, In e post -> quiet_effect e = true)
    by (apply forallb_forall; exact Hpost).
  assert (Hst : forall v x, In (EStore v x) post -> is_shared v = false).
  { intros v x Hin. apply Hq in Hin. simpl in Hin.
    destruct (is_shared v); [discriminate Hin | reflexivity]. }
  split; [|split; [|split; [|split]]].
  - destruct pre as [|p pre'].
    + destruct Hpre as [code Hc]. discriminate Hc.
    + exact Hpre.
  - intros v x Hin Hsh. rewrite E in Hin. apply in_app_or in Hin.
    destruct Hin as [Hin | [Hin | Hin]].
    + exact Hin.
    + discriminate Hin.
    + apply Hst in Hin. congruence.
  - exact Hst.
  - intros Hin. apply Hq in Hin. discriminate Hin.
  - rewrite <- tick_replay, E, replay_app. simpl.
    symmetry. apply replay_quiet. exact Hpost.
Qed.

Lemma shared_words_written_before_wake_witness :
  let c := default_config in
  let m := entry c 0 in
  (exists pre' code, [EStore Btn 0x20; EStore WaitBtn 300; EStore Evnt 3]
                     = pre' ++ [EStore Evnt code]) /\
  replay [EStore Btn 0x20; EStore WaitBtn 300; EStore Evnt 3] (shared_of m)
  = shared_of (fst (tick c 0x20 m)).
Proof.
  destruct (shared_words_written_before_wake default_config 0x20
              (entry default_config 0)
              [EStore Btn 0x20; EStore WaitBtn 300; EStore Evnt 3] [] eq_refl)
    as (H1 & _ & _ & _ & H5).
  split; [exact H1 | exact H5].
Defined.

(** Over a whole run, too, each wake directly follows a store of the event
    code. *)
Lemma app_eq_wake_split (l1 l2 pre post : list effect) :
  l1 ++ l2 = pre ++ EWake :: post ->
  (exists q, l1 = pre ++ EWake :: q) \/
  (exists p, pre = l1 ++ p /\ l2 = p ++ EWake :: post).
Proof.
  revert pre. induction l1 as [|e l1 IH]; intros pre E.
  - right. exists pre. split; [reflexivity | exact E].
  - destruct pre as [|p pre].
    + simpl in E. injection E as -> E. left. exists l1. reflexivity.
    + simpl in E. injection E as -> E. destruct (IH pre E) as [[q Hq] | [p' [Hp Hl]]].
      * left. exists q. rewrite Hq. reflexivity.
      * right. exists p'. split; [rewrite Hp; reflexivity | exact Hl].
Qed.

Lemma run_wake_follows_evnt_store c ios m pre post :
  snd (run c ios m) = pre ++ EWake :: post ->
  exists pre' code, pre = pre' ++ [EStore Evnt code].
Proof.
  revert m pre. induction ios as [|io ios IH]; intros m pre E.
  - destruct pre; discriminate E.
  - rewrite run_cons in E. simpl in E.
    apply app_eq_wake_split in E. destruct E as [[q Hq] | [p [Hp Hl]]].
    + destruct (wake_ok_split None _ pre q (tick_wake_ok c io m) Hq) as [Hpre _].
      destruct pre; [destruct Hpre as [? Hc]; discriminate Hc | exact Hpre].
    + destruct (IH _ _ Hl) as (p' & code & Hp').
      exists (snd (tick c io m) ++ p'), code. rewrite Hp, Hp', app_assoc. reflexivity.
Qed.

(** ** The wait phase *)

(** C3, as the specification states it, fails.  When the rotary timer runs
    out in a tick without pin change, the engine stores ROT_EVNT and wakes
    the main cores.  And with the reed and the button timer both running,
    such a tick counts down the reed timer only. *)
Lemma wait_phase_wakes_and_counts_one_timer :
  let c := default_config in
  let m := fst (run c (0x10 :: repeat 0x10 499) (entry c 0x18)) in
  let m' := fst (run c [0x20; 0x21; 0x21] (entry c 0)) in
  (Z.land 0x10 (IO_USED_MASK c) = r2 m /\ wait_rot_cnt m = 1 /\
   tick c 0x10 m = (store Evnt ROT_EVNT (store WaitRot 0 m),
                    [EStore WaitRot 0; EStore Evnt ROT_EVNT; EWake])) /\
  (Z.land 0x21 (IO_USED_MASK c) = r2 m' /\
   wait_reed_cnt m' = 10 /\ wait_btn_cnt m' = 300 /\
   wait_reed_cnt (fst (tick c 0x21 m')) = 9 /\
   wait_btn_cnt (fst (tick c 0x21 m')) = 300).
Proof. vm_compute. repeat split; reflexivity. Qed.

(** C3, amended: a tick in which no monitored pin changed counts down at
    most one timer, the first running one in the order reed, button, rotary,
    and leaves the rotation counter, the button mask, the previous sample
    and the trigger counter as they are.  The reed and the button timer run
    out without event or wake (the reed timer drives the debug pin low when
    that output is configured).  The rotary timer running out stores
    ROT_EVNT in the event register and wakes the main cores; nothing else
    in the wait phase does. *)
Theorem wait_phase_counts_first_running_timer c io m :
  config_ok c -> word_ok m ->
  Z.land io (IO_USED_MASK c) = r2 m ->
  let m' := fst (tick c io m) in
  let l := snd (tick c io m) in
  let reed := 1 <=? wait_reed_cnt m in
  let button := negb reed && (1 <=? wait_btn_cnt m) in
  let rotary := negb reed && negb button && (1 <=? wait_rot_cnt m) in
  let expired := rotary && (wait_rot_cnt m =? 1) in
  wait_reed_cnt m' = (if reed then wait_reed_cnt m - 1 else wait_reed_cnt m) /\
  wait_btn_cnt m' = (if button then wait_btn_cnt m - 1 else wait_btn_cnt m) /\
  wait_rot_cnt m' = (if rotary then wait_rot_cnt m - 1 else wait_rot_cnt m) /\
  rot_cnt m' = rot_cnt m /\ btn m' = btn m /\
  r2 m' = r2 m /\ stage_cnt m' = stage_cnt m /\
  evnt m' = (if expired then ROT_EVNT else evnt m) /\
  notifications l (shared_of m) = (if expired then [ROT_EVNT] else []) /\
  (forall lv, In (EDbg lv) l ->
     lv = false /\ wait_reed_cnt m = 1 /\ REED_DEBOUNCE_OUT c = true).
Proof.
  intros Hc Hm Hq. cbv zeta.
  rewrite tick_tests by assumption. rewrite Hq, Z.eqb_refl.
  destruct Hm as (_ & _ & _ & _ & _ & _ & Hwr & Hwo & Hwb).
  unfold word16 in *. unfold block, notifications.
  ulp_exec; unfold sub16, w16 in *;
    repeat match goal with
           | H : (_ <=? _) = true |- _ => apply Z.leb_le in H
           | H : (_ <=? _) = false |- _ => apply Z.leb_gt in H
           | H : (_ <? _) = true |- _ => apply Z.ltb_lt in H
           | H : (_ <? _) = false |- _ => apply Z.ltb_ge in H
           | H : context [(?x - 1) mod 65536] |- _ =>
               rewrite (Z.mod_small (x - 1) 65536) in H by lia
           | |- context [(?x - 1) mod 65536] =>
               rewrite (Z.mod_small (x - 1) 65536) by lia
           end;
    try lia;
    repeat match goal with
           | |- context [?a <=? ?b] =>
               first [ rewrite (proj2 (Z.leb_le a b)) by lia
                     | rewrite (proj2 (Z.leb_gt a b)) by lia ]
           | |- context [?a =? ?b] =>
               first [ rewrite (proj2 (Z.eqb_eq a b)) by lia
                     | rewrite (proj2 (Z.eqb_neq a b)) by lia ]
           end;
    cbn [negb andb snapshots map apply_effect sh_evnt shared_of In];
    repeat match goal with |- _ /\ _ => split end;
    try reflexivity; try lia;
    intros lv Hin; cbn [In] in Hin;
    repeat match goal with
           | H : _ \/ _ |- _ => destruct H
           | H : False |- _ => destruct H
           | H : EStore _ _ = EDbg _ |- _ => discriminate H
           | H : EWake = EDbg _ |- _ => discriminate H
           | H : EDbg _ = EDbg _ |- _ => injection H as <-
           end;
    repeat split; try reflexivity; try lia.
Qed.

Lemma default_config_ok : config_ok default_config.
Proof. unfold config_ok; simpl; lia. Qed.

Lemma wait_phase_counts_first_running_timer_witness :
  let c := default_config in
  let m := fst (run c (0x10 :: repeat 0x10 499) (entry c 0x18)) in
  wait_reed_cnt (fst (tick c 0x10 m)) = 0 /\
  wait_btn_cnt (fst (tick c 0x10 m)) = 0 /\
  wait_rot_cnt (fst (tick c 0x10 m)) = 0 /\
  evnt (fst (tick c 0x10 m)) = ROT_EVNT /\
  notifications (snd (tick c 0x10 m)) (shared_of m) = [ROT_EVNT].
Proof.
  intros c m.
  assert (Hm : word_ok m).
  { apply run_word_ok; [exact default_config_ok|].
    apply entry_word_ok. exact default_config_ok. }
  assert (Hq : Z.land 0x10 (IO_USED_MASK c) = r2 m) by (vm_compute; reflexivity).
  destruct (wait_phase_counts_first_running_timer c 0x10 m default_config_ok Hm Hq)
    as (H1 & H2 & H3 & _ & _ & _ & _ & H8 & H9 & _).
  rewrite H1, H2, H3, H8, H9. vm_compute.
  repeat match goal with |- _ /\ _ => split end; reflexivity.
Defined.

(** ** The reed divider *)

Lemma pin_rising_same k x : pin_rising k x x = false.
Proof. unfold pin_rising. destruct (Z.testbit x k); reflexivity. Qed.

(** One tick: the trigger counter moves on an accepted edge only, and a
    reed notification leaves at the edge that brings it to REED_DIV. *)
Lemma tick_reed_trigger c io m s :
  config_ok c -> word_ok m -> 0 <= stage_cnt m < REED_DIV c ->
  stage_cnt (fst (tick c io m)) =
    (if reed0_accepted c io m
     then (if stage_cnt m + 1 <? REED_DIV c then stage_cnt m + 1 else 0)
     else stage_cnt m) /\
  count_code REED_EVNT (notifications (snd (tick c io m)) s) =
    (if reed0_accepted c io m && negb (stage_cnt m + 1 <? REED_DIV c) then 1 else 0).
Proof.
  intros Hc Hm Hs.
  assert (HD : 1 <= REED_DIV c <= 255) by apply Hc.
  assert (Hw8 : w8 (stage_cnt m + 1) = stage_cnt m + 1)
    by (unfold w8; apply Z.mod_small; lia).
  rewrite tick_tests by assumption. unfold reed0_accepted.
  destruct (Z.eqb_spec (Z.land io (IO_USED_MASK c)) (r2 m)) as [E|E].
  - rewrite E, pin_rising_same. cbn [andb].
    unfold block, notifications, count_code. ulp_exec; split; reflexivity.
  - destruct (pin_rising (REED0_RTC_GPIO_NUM c) _ _).
    + unfold block, notifications, count_code. ulp_unfold. ulp_simpl.
      rewrite Z.leb_antisym.
      destruct (wait_reed_cnt m <? 1); cbn [negb andb]; ulp_simpl;
        [|split; reflexivity].
      rewrite Hw8.
      destruct (stage_cnt m + 1 <? REED_DIV c);
        destruct (REED_DEBOUNCE_OUT c); split; reflexivity.
    + cbn [andb].
      unfold block, notifications, count_code. ulp_exec; split; reflexivity.
Qed.

Lemma tick_reed_accepted c io m :
  config_ok c -> word_ok m -> 0 <= stage_cnt m < REED_DIV c ->
  reed0_accepted c io m = true ->
  notifications (snd (tick c io m)) (shared_of m) =
    (if stage_cnt m + 1 <? REED_DIV c then [] else [REED_EVNT]).
Proof.
  intros Hc Hm Hs Ha.
  assert (HD : 1 <= REED_DIV c <= 255) by apply Hc.
  assert (Hw8 : w8 (stage_cnt m + 1) = stage_cnt m + 1)
    by (unfold w8; apply Z.mod_small; lia).
  unfold reed0_accepted in Ha. apply andb_prop in Ha. destruct Ha as [Hr Hw].
  rewrite tick_tests by assumption. rewrite Hr.
  apply pin_rising_neq in Hr. apply Z.eqb_neq in Hr. rewrite Hr.
  unfold block, notifications. ulp_unfold. ulp_simpl.
  rewrite Z.leb_antisym, Hw. cbn [negb]. ulp_simpl. rewrite Hw8.
  destruct (stage_cnt m + 1 <? REED_DIV c); destruct (REED_DEBOUNCE_OUT c); reflexivity.
Qed.

Lemma run_reed_trigger c ios m :
  config_ok c -> word_ok m -> 0 <= stage_cnt m < REED_DIV c ->
  count_code REED_EVNT (notifications (snd (run c ios m)) (shared_of m)) =
    (stage_cnt m + accepted_edges c ios m) / REED_DIV c /\
  stage_cnt (fst (run c ios m)) =
    (stage_cnt m + accepted_edges c ios m) mod REED_DIV c.
Proof.
  intros Hc. revert m. induction ios as [|io ios IH]; intros m Hm Hs.
  - simpl. rewrite Z.add_0_r, Z.div_small, Z.mod_small by lia. split; reflexivity.
  - destruct (tick_reed_trigger c io m (shared_of m) Hc Hm Hs) as [Hst Hcnt].
    assert (Hs1 : 0 <= stage_cnt (fst (tick c io m)) < REED_DIV c).
    { rewrite Hst. destruct (reed0_accepted c io m); [|exact Hs].
      destruct (Z.ltb_spec (stage_cnt m + 1) (REED_DIV c)); lia. }
    destruct (IH _ (tick_word_ok c io m Hc Hm) Hs1) as [IHc IHs].
    rewrite run_cons. cbn [fst snd accepted_edges].
    rewrite notifications_app, count_code_app, tick_replay, Hcnt, IHc, IHs, Hst.
    destruct (reed0_accepted c io m); cbn [andb].
    + destruct (Z.ltb_spec (stage_cnt m + 1) (REED_DIV c)) as [Hlt|Hge]; cbn [negb].
      * replace (stage_cnt m + (1 + accepted_edges c ios (fst (tick c io m))))
          with (stage_cnt m + 1 + accepted_edges c ios (fst (tick c io m))) by lia.
        split; reflexivity.
      * replace (stage_cnt m + (1 + accepted_edges c ios (fst (tick c io m))))
          with (1 * REED_DIV c + (0 + accepted_edges c ios (fst (tick c io m)))) by lia.
        rewrite Z.div_add_l by lia.
        rewrite (Z.add_comm (1 * REED_DIV c)), Z.mod_add by lia. split; reflexivity.
    + split; reflexivity.
Qed.

(** C6: over any sequence of samples from [entry], with [n] the number of
    accepted rising edges of reed 0 so far, the engine has issued [n / D]
    reed notifications and its trigger counter holds [n mod D]
    (D = REED_DIV).  The next accepted edge is followed by a notification
    exactly when it is a D-th edge, and the counter is 0 right after it. *)
Theorem reed_notification_every_REED_DIV_edges c io0 ios :
  config_ok c ->
  let n := accepted_edges c ios (entry c io0) in
  let m := fst (run c ios (entry c io0)) in
  count_code REED_EVNT
    (notifications (snd (run c ios (entry c io0))) (shared_of (entry c io0)))
  = n / REED_DIV c /\
  stage_cnt m = n mod REED_DIV c /\
  forall io, reed0_accepted c io m = true ->
    notifications (snd (tick c io m)) (shared_of m) =
      (if (n + 1) mod REED_DIV c =? 0 then [REED_EVNT] else []) /\
    stage_cnt (fst (tick c io m)) = (n + 1) mod REED_DIV c.
Proof.
  intros Hc n m.
  assert (HD : 1 <= REED_DIV c <= 255) by apply Hc.
  pose proof (entry_word_ok c io0 Hc) as H0.
  assert (Hs0 : 0 <= stage_cnt (entry c io0) < REED_DIV c) by (simpl; lia).
  destruct (run_reed_trigger c ios _ Hc H0 Hs0) as [Hcnt Hst].
  change (stage_cnt (entry c io0)) with 0 in Hcnt, Hst. rewrite Z.add_0_l in Hcnt, Hst.
  fold n in Hcnt, Hst. fold m in Hst.
  split; [exact Hcnt|]. split; [exact Hst|].
  intros io Ha.
  assert (Hm : word_ok m) by (apply run_word_ok; assumption).
  assert (Hs : 0 <= stage_cnt m < REED_DIV c)
    by (rewrite Hst; apply Z.mod_pos_bound; lia).
  assert (Hn : (n + 1) mod REED_DIV c = (stage_cnt m + 1) mod REED_DIV c)
    by (rewrite Hst, Z.add_mod_idemp_l by lia; reflexivity).
  rewrite (tick_reed_accepted c io m Hc Hm Hs Ha).
  destruct (tick_reed_trigger c io m (shared_of m) Hc Hm Hs) as [Hst' _].
  rewrite Hst', Ha, Hn.
  destruct (Z.ltb_spec (stage_cnt m + 1) (REED_DIV c)) as [Hlt|Hge].
  - rewrite Z.mod_small by lia.
    rewrite (proj2 (Z.eqb_neq _ _)) by lia. split; reflexivity.
  - replace (stage_cnt m + 1) with (REED_DIV c) by lia.
    rewrite Z.mod_same by lia. split; reflexivity.
Qed.

(** REED_DIV = 5: four pulses of the reed contact, then the fifth edge. *)
Lemma reed_notification_every_REED_DIV_edges_witness :
  let c := default_config in
  let ios := concat (repeat reed_pulse 4) in
  let m := fst (run c ios (entry c 0)) in
  accepted_edges c ios (entry c 0) = 4 /\
  count_code REED_EVNT (notifications (snd (run c ios (entry c 0))) (shared_of (entry c 0)))
  = 0 /\
  stage_cnt m = 4 /\
  notifications (snd (tick c 0x1 m)) (shared_of m) = [REED_EVNT] /\
  stage_cnt (fst (tick c 0x1 m)) = 0.
Proof.
  intros c ios m.
  destruct (reed_notification_every_REED_DIV_edges c 0 ios default_config_ok)
    as (H1 & H2 & H3).
  destruct (H3 0x1 ltac:(vm_compute; reflexivity)) as [H4 H5].
  split; [vm_compute; reflexivity|].
  split; [rewrite H1; vm_compute; reflexivity|].
  split; [fold m in H2; rewrite H2; vm_compute; reflexivity|].
  split; [fold m in H4; rewrite H4; vm_compute; reflexivity|].
  fold m in H5. rewrite H5. vm_compute. reflexivity.
Defined.

(** ** The rotation notification *)










(** ** The blocking read *)

Lemma existsb_wake_false l :
  ~ In EWake l ->
  existsb (fun e => match e with EWake => true | _ => false end) l = false.
Proof.
  induction l as [|e l IH]; intros H; [reflexivity|].
  simpl. destruct e; try (apply IH; intros Hin; apply H; right; exact Hin).
  exfalso. apply H. left. reflexivity.
Qed.

Lemma await_silent c n ios m :
  ~ In EWake (snd (run c (firstn n ios) m)) ->
  await c n ios m = (None, fst (run c (firstn n ios) m)).
Proof.
  revert ios m. induction n as [|n IH]; intros ios m H.
  - reflexivity.
  - destruct ios as [|io ios]; [reflexivity|].
    cbn [firstn] in *. rewrite run_cons in *. cbn [fst snd] in *.
    cbn [await]. destruct (tick c io m) as [m1 l] eqn:Et. cbn [fst snd] in *.
    rewrite existsb_wake_false by (intros Hin; apply H; apply in_or_app; left; exact Hin).
    rewrite IH by (intros Hin; apply H; apply in_or_app; right; exact Hin).
    reflexivity.
Qed.

(** C9: when the engine raises no wake during the [timeout] ticks of a
    call, [key_rot_read] returns ESP_ERR_TIMEOUT, a value that is neither
    ESP_OK nor an event code of either side, delivers no event, and the
    machine is as the engine alone has left it: the read has written to no
    shared word. *)
Theorem key_rot_read_timeout c timeout ios m :
  ~ In EWake (snd (run c (firstn timeout ios) m)) ->
  key_rot_read c timeout ios m =
    (ESP_ERR_TIMEOUT, None, fst (run c (firstn timeout ios) m)) /\
  shared_of (snd (key_rot_read c timeout ios m)) =
    replay (snd (run c (firstn timeout ios) m)) (shared_of m) /\
  ESP_ERR_TIMEOUT <> ESP_OK /\
  ~ In ESP_ERR_TIMEOUT
      [REED_EVNT; ROT_EVNT; BTN_EVNT; EVNT_BTN_PRSS; EVNT_BTN_RELS; EVNT_ROT].
Proof.
  intros H. unfold key_rot_read. rewrite (await_silent c timeout ios m H).
  split; [reflexivity|]. split; [cbn [snd]; symmetry; apply run_replay|].
  split; [discriminate|].
  cbn [In]. intros Hin.
  repeat (destruct Hin as [Hin|Hin]; [discriminate Hin|]). exact Hin.
Qed.

(** A call with a timeout of 100 ticks while the inputs rest: timeout, and
    the shared words are those of [entry]. *)
Lemma key_rot_read_timeout_witness :
  let c := default_config in
  key_rot_read c 100 (repeat 0 200) (entry c 0) = (ESP_ERR_TIMEOUT, None, entry c 0).
Proof.
  intros c.
  destruct (key_rot_read_timeout c 100 (repeat 0 200) (entry c 0)) as (H & _).
  - vm_compute. intros Hin. exact Hin.
  - rewrite H. vm_compute. reflexivity.
Defined.

(** * Further properties of the engine *)

(** ** A tick without pin change, in full *)

Lemma tick_quiet_eq c io m :
  config_ok c -> word_ok m -> Z.land io (IO_USED_MASK c) = r2 m ->
  tick c io m =
    if 1 <=? wait_reed_cnt m then
      (store WaitReed (wait_reed_cnt m - 1) m,
       EStore WaitReed (wait_reed_cnt m - 1) ::
       (if (wait_reed_cnt m =? 1) && REED_DEBOUNCE_OUT c then [EDbg false] else []))
    else if 1 <=? wait_btn_cnt m then
      (store WaitBtn (wait_btn_cnt m - 1) m, [EStore WaitBtn (wait_btn_cnt m - 1)])
    else if wait_rot_cnt m =? 1 then
      (store Evnt ROT_EVNT (store WaitRot 0 m),
       [EStore WaitRot 0; EStore Evnt ROT_EVNT; EWake])
    else if 1 <=? wait_rot_cnt m then
      (store WaitRot (wait_rot_cnt m - 1) m, [EStore WaitRot (wait_rot_cnt m - 1)])
    else (m, []).
Proof.
  intros Hc Hm Hq.
  rewrite tick_tests by assumption. rewrite Hq, Z.eqb_refl.
  destruct Hm as (_ & _ & _ & _ & _ & _ & Hwr & Hwo & Hwb). unfold word16 in *.
  assert (Hs : forall x, 1 <= x < 65536 -> sub16 x 1 = x - 1)
    by (intros x Hx; unfold sub16, w16; apply Z.mod_small; lia).
  unfold block. ulp_exec;
    repeat match goal with
           | H : (_ <=? _) = true |- _ => apply Z.leb_le in H
           | H : (_ <=? _) = false |- _ => apply Z.leb_gt in H
           | H : (_ <? _) = true |- _ => apply Z.ltb_lt in H
           | H : (_ <? _) = false |- _ => apply Z.ltb_ge in H
           | H : (_ =? _) = true |- _ => apply Z.eqb_eq in H
           | H : (_ =? _) = false |- _ => apply Z.eqb_neq in H
           end;
    rewrite ?Hs in * by lia; try lia; cbn [andb app]; try reflexivity;
    repeat match goal with
           | H : ?x = 1 |- _ => rewrite H in *
           end; try lia; reflexivity.
Qed.

(** ** What every reachable state satisfies *)

Lemma land_mask_idem a b : Z.land (Z.land a b) b = Z.land a b.
Proof. rewrite <- Z.land_assoc, Z.land_diag. reflexivity. Qed.

Lemma entry_inv c io : config_ok c -> engine_inv c (entry c io).
Proof.
  intros Hc. split; [apply entry_word_ok; exact Hc|].
  unfold entry; cbn. rewrite land_mask_idem.
  destruct Hc as (_ & _ & _ & _ & ? & ? & ? & ? & _).
  repeat split; try reflexivity; lia.
Qed.

Lemma tick_inv c io m :
  config_ok c -> engine_inv c m -> engine_inv c (fst (tick c io m)).
Proof.
  intros Hc (Hm & Hr2 & Hst & Hwr & Hwb & Hwo & Hbt & Hev & Hrt).
  split; [apply tick_word_ok; assumption|].
  pose proof (land_mask_idem io (IO_USED_MASK c)) as Hr1.
  pose proof (land_mask_idem (Z.land io (IO_USED_MASK c)) (BTN_RTC_GPIO_MASK c)) as Hb1.
  pose proof (ab_code_range c (Z.land io (IO_USED_MASK c)) (r2 m)) as Hab.
  destruct Hm as (_ & Hs0 & _ & _ & _ & _ & Wr & Wo & Wb). unfold word16 in *.
  destruct Hc as (_ & _ & _ & _ & HWR & HWO & HWB & HD & _).
  assert (Hs : forall x, 1 <= x < 65536 -> sub16 x 1 = x - 1)
    by (intros x Hx; unfold sub16, w16; apply Z.mod_small; lia).
  assert (Hw8 : w8 (stage_cnt m + 1) = stage_cnt m + 1)
    by (unfold w8; apply Z.mod_small; lia).
  ulp_exec;
    repeat match goal with
           | H : (_ <=? _) = true |- _ => apply Z.leb_le in H
           | H : (_ <=? _) = false |- _ => apply Z.leb_gt in H
           | H : (_ <? _) = true |- _ => apply Z.ltb_lt in H
           | H : (_ <? _) = false |- _ => apply Z.ltb_ge in H
           end;
    rewrite ?Hs, ?Hw8 in * by lia;
    unfold REED_EVNT, ROT_EVNT, BTN_EVNT;
    repeat match goal with |- _ /\ _ => split end;
    assumption || lia.
Qed.

Lemma run_inv c ios m :
  config_ok c -> engine_inv c m -> engine_inv c (fst (run c ios m)).
Proof.
  intros Hc. revert m. induction ios as [|io ios IH]; intros m Hm; [exact Hm|].
  rewrite run_cons. cbn [fst]. apply IH. apply tick_inv; assumption.
Qed.

(** Every state reached from [entry] keeps all words in range, the
    previous sample within the monitored pins, the trigger counter below
    REED_DIV, each timer at most at its configured wait, the button word
    within the button mask, the event register in 0..3 and the table index
    below 16. *)
Theorem reachable_states_bounded c io0 ios :
  config_ok c -> engine_inv c (fst (run c ios (entry c io0))).
Proof.
  intros Hc. apply run_inv; [exact Hc|]. apply entry_inv. exact Hc.
Qed.

Lemma reachable_states_bounded_witness :
  engine_inv default_config
    (fst (run default_config (concat (repeat reed_pulse 3)) (entry default_config 0))).
Proof.
  apply (reachable_states_bounded default_config 0 (concat (repeat reed_pulse 3))).
  exact default_config_ok.
Defined.

(** ** At rest, and coming to rest *)

(** With all three timers idle and no pin changing, the engine stores
    nothing and wakes nobody, however long it runs.  In particular the pin
    levels found at [entry] are not taken for edges. *)
Theorem idle_engine_is_silent c m ios :
  config_ok c -> word_ok m ->
  wait_reed_cnt m = 0 -> wait_btn_cnt m = 0 -> wait_rot_cnt m = 0 ->
  quiet_for c m ios ->
  run c ios m = (m, []).
Proof.
  intros Hc Hm Hr Hb Ho Hq. induction Hq as [|io ios Hio Hq IH]; [reflexivity|].
  rewrite run_cons, (tick_quiet_eq c io m Hc Hm Hio), Hr, Hb, Ho.
  cbn [Z.leb Z.eqb Z.compare fst snd app]. rewrite IH. reflexivity.
Qed.

Lemma idle_engine_is_silent_witness :
  run default_config (repeat 0x138 1000) (entry default_config 0x138)
  = (entry default_config 0x138, []).
Proof.
  apply (idle_engine_is_silent default_config (entry default_config 0x138)
           (repeat 0x138 1000)).
  - exact default_config_ok.
  - apply entry_word_ok. exact default_config_ok.
  - reflexivity.
  - reflexivity.
  - reflexivity.
  - apply Forall_forall. intros x Hx. apply repeat_spec in Hx. subst x. reflexivity.
Defined.

(** Without pin changes the timers drain one after the other, reed first,
    then button, then rotary: after as many ticks as the three timers hold
    together all are idle, the rotation counter, the button word, the
    previous sample and the trigger counter are untouched, and the main
    cores were woken exactly once, with ROT_EVNT, if the rotary timer was
    running, and not at all otherwise. *)
Theorem timers_drain_in_turn c m ios :
  config_ok c -> word_ok m -> quiet_for c m ios ->
  Z.of_nat (length ios) = wait_reed_cnt m + wait_btn_cnt m + wait_rot_cnt m ->
  let m' := fst (run c ios m) in
  wait_reed_cnt m' = 0 /\ wait_btn_cnt m' = 0 /\ wait_rot_cnt m' = 0 /\
  rot_cnt m' = rot_cnt m /\ btn m' = btn m /\
  r2 m' = r2 m /\ stage_cnt m' = stage_cnt m /\
  notifications (snd (run c ios m)) (shared_of m) =
    (if 1 <=? wait_rot_cnt m then [ROT_EVNT] else []).
Proof.
  intros Hc. revert m. induction ios as [|io ios IH]; intros m Hm Hq Hlen; cbv zeta.
  - destruct Hm as (_ & _ & _ & _ & _ & _ & Hwr & Hwo & Hwb). unfold word16 in *.
    cbn [length Z.of_nat] in Hlen. cbn [run fst snd notifications snapshots map].
    rewrite (proj2 (Z.leb_gt 1 (wait_rot_cnt m))) by lia.
    repeat split; try reflexivity; lia.
  - assert (Hio : Z.land io (IO_USED_MASK c) = r2 m) by (inversion Hq; assumption).
    assert (Hqs : quiet_for c m ios) by (inversion Hq; assumption).
    pose proof (tick_word_ok c io m Hc Hm) as Hm1.
    pose proof (tick_quiet_eq c io m Hc Hm Hio) as Et.
    destruct Hm as (_ & _ & _ & _ & _ & _ & Hwr & Hwo & Hwb). unfold word16 in *.
    cbn [length] in Hlen. rewrite Nat2Z.inj_succ in Hlen.
    rewrite run_cons. cbn [fst snd].
    rewrite notifications_app, tick_replay.
    specialize (IH (fst (tick c io m)) Hm1).
    revert IH Hm1. rewrite Et.
    destruct (Z.leb_spec 1 (wait_reed_cnt m)) as [H1|H1];
      [|destruct (Z.leb_spec 1 (wait_btn_cnt m)) as [H2|H2];
        [|destruct (Z.eqb_spec (wait_rot_cnt m) 1) as [H3|H3];
          [|destruct (Z.leb_spec 1 (wait_rot_cnt m)) as [H4|H4]]]];
      cbn [fst snd]; intros IH Hm1.
    + destruct (IH Hqs ltac:(cbn; lia)) as (I1 & I2 & I3 & I4 & I5 & I6 & I7 & I8).
      cbn [store wait_rot_cnt rot_cnt btn r2 stage_cnt] in *.
      rewrite I8. repeat split; try assumption.
      destruct ((wait_reed_cnt m =? 1) && REED_DEBOUNCE_OUT c); reflexivity.
    + destruct (IH Hqs ltac:(cbn; lia)) as (I1 & I2 & I3 & I4 & I5 & I6 & I7 & I8).
      cbn [store wait_rot_cnt rot_cnt btn r2 stage_cnt] in *.
      rewrite I8. repeat split; assumption || reflexivity.
    + assert (ios = []) by (destruct ios; [reflexivity | cbn [length] in Hlen; lia]).
      subst ios. rewrite H3. cbn. repeat split; reflexivity || lia.
    + destruct (IH Hqs ltac:(cbn; lia)) as (I1 & I2 & I3 & I4 & I5 & I6 & I7 & I8).
      cbn [store wait_rot_cnt rot_cnt btn r2 stage_cnt] in *.
      rewrite I8. rewrite (proj2 (Z.leb_le 1 (wait_rot_cnt m - 1))) by lia.
      repeat split; assumption || reflexivity.
    + lia.
Qed.

Lemma timers_drain_in_turn_witness :
  let c := default_config in
  let m := fst (run c [0x38; 0x39; 0x39; 0x31] (entry c 0x18)) in
  let m' := fst (run c (repeat 0x31 810) m) in
  wait_reed_cnt m' = 0 /\ wait_btn_cnt m' = 0 /\ wait_rot_cnt m' = 0 /\
  rot_cnt m' = rot_cnt m /\ btn m' = btn m /\
  r2 m' = r2 m /\ stage_cnt m' = stage_cnt m /\
  notifications (snd (run c (repeat 0x31 810) m)) (shared_of m) = [ROT_EVNT].
Proof.
  intros c m.
  apply (timers_drain_in_turn c m (repeat 0x31 810)).
  - exact default_config_ok.
  - apply run_word_ok; [exact default_config_ok|].
    apply entry_word_ok. exact default_config_ok.
  - apply Forall_forall. intros x Hx. apply repeat_spec in Hx. subst x.
    vm_compute. reflexivity.
  - vm_compute. reflexivity.
Defined.

(** ** When the main cores are woken *)

Lemma same_sample_tests c x :
  pin_rising (REED0_RTC_GPIO_NUM c) x x = false /\
  pin_rising (REED1_RTC_GPIO_NUM c) x x = false /\
  changed (IO_ROT_MASK c) x x = 0 /\
  rose (BTN_RTC_GPIO_MASK c) x x = 0 /\
  changed (BTN_RTC_GPIO_MASK c) x x = 0.
Proof.
  unfold changed, rose. rewrite !pin_rising_same, Z.lxor_nilpotent, !Z.land_0_l.
  repeat split; reflexivity.
Qed.

(** A tick wakes the main cores in three cases and no other: an accepted
    rising edge of reed 0 that brings the trigger counter to REED_DIV
    (code 1), an accepted button press (code 3), and the rotary timer
    running out in a tick without pin change while the other two timers are
    idle (code 2).  It wakes them at most once, and the event register
    changes in exactly these ticks, to the code of the wake; the engine
    never clears it. *)
Theorem wake_exactly_on_three_causes c io m :
  config_ok c -> word_ok m -> stage_cnt m < REED_DIV c ->
  notifications (snd (tick c io m)) (shared_of m) =
    (if reed0_accepted c io m && negb (stage_cnt m + 1 <? REED_DIV c) then [REED_EVNT]
     else if btn_accepted c io m then [BTN_EVNT]
     else if rot_expiring c io m then [ROT_EVNT]
     else []) /\
  evnt (fst (tick c io m)) =
    hd (evnt m) (notifications (snd (tick c io m)) (shared_of m)).
Proof.
  intros Hc Hm Hst.
  assert (HD : 1 <= REED_DIV c <= 255) by apply Hc.
  assert (Hs0 : 0 <= stage_cnt m < 256) by apply Hm.
  assert (Hw8 : w8 (stage_cnt m + 1) = stage_cnt m + 1)
    by (unfold w8; apply Z.mod_small; lia).
  unfold reed0_accepted, btn_accepted, rot_expiring, btn_dispatch.
  destruct (Z.eqb_spec (Z.land io (IO_USED_MASK c)) (r2 m)) as [E|E].
  - rewrite (tick_quiet_eq c io m Hc Hm E). rewrite E.
    destruct (same_sample_tests c (r2 m)) as (-> & -> & -> & -> & _).
    destruct Hm as (_ & _ & _ & _ & _ & _ & Hwr & Hwo & Hwb). unfold word16 in *.
    cbn [andb negb Z.eqb].
    destruct (Z.leb_spec 1 (wait_reed_cnt m));
      [rewrite (proj2 (Z.ltb_ge (wait_reed_cnt m) 1)) by lia
      |rewrite (proj2 (Z.ltb_lt (wait_reed_cnt m) 1)) by lia];
      cbn [andb fst snd notifications snapshots map apply_effect hd store evnt];
      [destruct ((wait_reed_cnt m =? 1) && REED_DEBOUNCE_OUT c); split; reflexivity|].
    destruct (Z.leb_spec 1 (wait_btn_cnt m));
      [rewrite (proj2 (Z.ltb_ge (wait_btn_cnt m) 1)) by lia
      |rewrite (proj2 (Z.ltb_lt (wait_btn_cnt m) 1)) by lia];
      cbn [andb fst snd notifications snapshots map apply_effect hd store evnt];
      [split; reflexivity|].
    destruct (wait_rot_cnt m =? 1);
      cbn [andb fst snd notifications snapshots map apply_effect hd store evnt
           sh_evnt shared_of];
      [split; reflexivity|].
    destruct (1 <=? wait_rot_cnt m);
      cbn [andb fst snd notifications snapshots map apply_effect hd store evnt];
      split; reflexivity.
  - rewrite tick_tests by assumption.
    rewrite (proj2 (Z.eqb_neq _ _) E). cbn [andb].
    rewrite (Z.ltb_antisym 1 (wait_reed_cnt m)), (Z.ltb_antisym 1 (wait_btn_cnt m)).
    destruct (pin_rising (REED0_RTC_GPIO_NUM c) _ _); cbn [andb negb].
    + unfold block, notifications. ulp_unfold. ulp_simpl.
      destruct (1 <=? wait_reed_cnt m); cbn [negb andb]; ulp_simpl;
        [split; reflexivity|].
      rewrite Hw8.
      destruct (stage_cnt m + 1 <? REED_DIV c); cbn [negb]; ulp_simpl;
        destruct (REED_DEBOUNCE_OUT c); split; reflexivity.
    + destruct (pin_rising (REED1_RTC_GPIO_NUM c) _ _); cbn [andb negb];
        [unfold block, notifications; ulp_exec; split; reflexivity|].
      destruct (changed (IO_ROT_MASK c) _ _ =? 0); cbn [andb negb];
        [|unfold block, notifications; ulp_exec; split; reflexivity].
      destruct (rose (BTN_RTC_GPIO_MASK c) _ _ =? 0); cbn [andb negb];
        [unfold block, notifications; ulp_exec; split; reflexivity|].
      unfold block, notifications. ulp_unfold. ulp_simpl.
      destruct (1 <=? wait_btn_cnt m); cbn [negb andb]; ulp_simpl;
        split; reflexivity.
Qed.

Lemma wake_exactly_on_three_causes_witness :
  let c := default_config in
  let m := entry c 0x18 in
  notifications (snd (tick c 0x38 m)) (shared_of m) = [BTN_EVNT] /\
  evnt (fst (tick c 0x38 m)) = BTN_EVNT.
Proof.
  intros c m.
  destruct (wake_exactly_on_three_causes c 0x38 m default_config_ok
              (entry_word_ok c 0x18 default_config_ok) ltac:(vm_compute; reflexivity))
    as [H1 H2].
  split.
  - rewrite H1. vm_compute. reflexivity.
  - rewrite H2, H1. vm_compute. reflexivity.
Defined.

(** ** When the previous sample advances *)

(** Every tick ends with the previous sample equal to the current one,
    except the tick of an accepted reed 0 edge that does not yet complete
    REED_DIV: that one leaves the previous sample as it was, so the same
    edge is met again by the next tick. *)
Theorem previous_sample_advances_but_once c io m :
  config_ok c -> word_ok m -> stage_cnt m < REED_DIV c ->
  r2 (fst (tick c io m)) =
    if reed0_accepted c io m && (stage_cnt m + 1 <? REED_DIV c)
    then r2 m
    else Z.land io (IO_USED_MASK c).
Proof.
  intros Hc Hm Hst.
  assert (HD : 1 <= REED_DIV c <= 255) by apply Hc.
  assert (Hs0 : 0 <= stage_cnt m < 256) by apply Hm.
  assert (Hw8 : w8 (stage_cnt m + 1) = stage_cnt m + 1)
    by (unfold w8; apply Z.mod_small; lia).
  unfold reed0_accepted.
  destruct (Z.eqb_spec (Z.land io (IO_USED_MASK c)) (r2 m)) as [E|E].
  - rewrite (tick_quiet_eq c io m Hc Hm E). rewrite E, pin_rising_same. cbn [andb].
    repeat match goal with
           | |- context [if ?b then _ else _] => destruct b
           end; reflexivity.
  - rewrite tick_tests by assumption.
    rewrite (proj2 (Z.eqb_neq _ _) E).
    rewrite (Z.ltb_antisym 1 (wait_reed_cnt m)).
    destruct (pin_rising (REED0_RTC_GPIO_NUM c) _ _); cbn [andb negb].
    + unfold block. ulp_unfold. ulp_simpl.
      destruct (1 <=? wait_reed_cnt m); cbn [negb andb]; ulp_simpl; [reflexivity|].
      rewrite Hw8.
      destruct (stage_cnt m + 1 <? REED_DIV c); ulp_simpl;
        destruct (REED_DEBOUNCE_OUT c); reflexivity.
    + unfold block. ulp_exec; reflexivity.
Qed.

Lemma previous_sample_advances_but_once_witness :
  let c := default_config in
  r2 (fst (tick c 0x1 (entry c 0))) = 0 /\
  r2 (fst (tick c 0x1 (fst (tick c 0x1 (entry c 0))))) = 1.
Proof.
  intros c. split.
  - rewrite (previous_sample_advances_but_once c 0x1 (entry c 0) default_config_ok
               (entry_word_ok c 0 default_config_ok) ltac:(vm_compute; reflexivity)).
    vm_compute. reflexivity.
  - rewrite (previous_sample_advances_but_once c 0x1 (fst (tick c 0x1 (entry c 0)))
               default_config_ok
               (tick_word_ok c 0x1 _ default_config_ok
                  (entry_word_ok c 0 default_config_ok))
               ltac:(vm_compute; reflexivity)).
    vm_compute. reflexivity.
Defined.

(** ** Falling edges *)

(** A falling edge wakes nobody and leaves the shared words, the trigger
    counter and the rotary timer alone.  If a button pin is among the
    changed pins the button timer is set to its full wait, also when it was
    running; otherwise, if reed 1 changed nothing is done; otherwise (reed 0
    opened) the reed timer is set to its full wait.  The sample is
    consumed. *)
Theorem falling_edge_arms_own_timer c io m :
  config_ok c -> word_ok m ->
  falling_dispatch c (Z.land io (IO_USED_MASK c)) (r2 m) = true ->
  tick c io m =
    if negb (changed (BTN_RTC_GPIO_MASK c) (Z.land io (IO_USED_MASK c)) (r2 m) =? 0)
    then (store WaitBtn (WAIT_BTN_SET c) (set_r2 (Z.land io (IO_USED_MASK c)) m),
          [EStore WaitBtn (WAIT_BTN_SET c)])
    else if negb (changed (IO_REED1_MASK c) (Z.land io (IO_USED_MASK c)) (r2 m) =? 0)
    then (set_r2 (Z.land io (IO_USED_MASK c)) m, [])
    else (store WaitReed (WAIT_REED_SET c) (set_r2 (Z.land io (IO_USED_MASK c)) m),
          [EStore WaitReed (WAIT_REED_SET c)]).
Proof.
  intros Hc Hm H. unfold falling_dispatch in H.
  apply andb_prop in H. destruct H as [H Hb].
  apply andb_prop in H. destruct H as [H Ha].
  apply andb_prop in H. destruct H as [H H1].
  apply andb_prop in H. destruct H as [He H0].
  apply negb_true_iff in He, H0, H1.
  rewrite tick_tests by assumption. rewrite He, H0, H1, Ha, Hb. cbn [negb].
  unfold block. ulp_exec; reflexivity.
Qed.

Lemma falling_edge_arms_own_timer_witness :
  let c := default_config in
  let m := fst (run c [0x20; 0x20; 0x20] (entry c 0)) in
  wait_btn_cnt m = 298 /\
  tick c 0x0 m = (store WaitBtn 300 (set_r2 0 m), [EStore WaitBtn 300]).
Proof.
  intros c m. split; [vm_compute; reflexivity|].
  rewrite (falling_edge_arms_own_timer c 0x0 m default_config_ok).
  - vm_compute. reflexivity.
  - apply run_word_ok; [exact default_config_ok|].
    apply entry_word_ok. exact default_config_ok.
  - vm_compute. reflexivity.
Defined.

(** ** Button presses *)

Lemma btn_dispatch_tests c r1 prev :
  btn_dispatch c r1 prev = true ->
  (r1 =? prev) = false /\
  pin_rising (REED0_RTC_GPIO_NUM c) r1 prev = false /\
  pin_rising (REED1_RTC_GPIO_NUM c) r1 prev = false /\
  (changed (IO_ROT_MASK c) r1 prev =? 0) = true /\
  (rose (BTN_RTC_GPIO_MASK c) r1 prev =? 0) = false.
Proof.
  unfold btn_dispatch. intros Hb.
  apply andb_prop in Hb. destruct Hb as [Hb Hr].
  apply andb_prop in Hb. destruct Hb as [Hb Ha].
  apply andb_prop in Hb. destruct Hb as [H0 H1].
  apply negb_true_iff in H0, H1, Hr.
  repeat split; try assumption.
  apply Z.eqb_neq. apply (rose_neq (BTN_RTC_GPIO_MASK c)).
  apply Z.eqb_neq. exact Hr.
Qed.

Lemma tick_btn_rising c io m :
  config_ok c -> word_ok m ->
  btn_dispatch c (Z.land io (IO_USED_MASK c)) (r2 m) = true ->
  tick c io m =
    if 1 <=? wait_btn_cnt m
    then (set_r2 (Z.land io (IO_USED_MASK c)) m, [])
    else (set_r2 (Z.land io (IO_USED_MASK c))
            (store Evnt BTN_EVNT
               (store WaitBtn (WAIT_BTN_SET c)
                  (store Btn (Z.land (Z.land io (IO_USED_MASK c)) (BTN_RTC_GPIO_MASK c)) m))),
          [EStore Btn (Z.land (Z.land io (IO_USED_MASK c)) (BTN_RTC_GPIO_MASK c));
           EStore WaitBtn (WAIT_BTN_SET c); EStore Evnt BTN_EVNT; EWake]).
Proof.
  intros Hc Hm Hb.
  destruct (btn_dispatch_tests c _ _ Hb) as (He & H0 & H1 & Ha & Hr).
  rewrite tick_tests by assumption. rewrite He, H0, H1, Ha, Hr. cbn [negb].
  unfold block. ulp_exec; reflexivity.
Qed.

(** An accepted button press latches the buttons that are down in the
    current sample - a non-empty set within the button mask, which holds
    every button that rose - arms the button timer and wakes the main cores
    with BTN_EVNT.  A further rising button edge in the very next sample
    changes nothing: the pair of samples yields one notification and the
    button word of the first edge. *)
Theorem button_press_reported_once c io1 io2 m :
  config_ok c -> word_ok m ->
  btn_accepted c io1 m = true ->
  btn_dispatch c (Z.land io2 (IO_USED_MASK c)) (Z.land io1 (IO_USED_MASK c)) = true ->
  let pressed := Z.land (Z.land io1 (IO_USED_MASK c)) (BTN_RTC_GPIO_MASK c) in
  let m1 := fst (tick c io1 m) in
  let m2 := fst (run c [io1; io2] m) in
  pressed <> 0 /\ Z.land pressed (BTN_RTC_GPIO_MASK c) = pressed /\
  Z.land (rose (BTN_RTC_GPIO_MASK c) (Z.land io1 (IO_USED_MASK c)) (r2 m)) pressed
    = rose (BTN_RTC_GPIO_MASK c) (Z.land io1 (IO_USED_MASK c)) (r2 m) /\
  btn m1 = pressed /\ wait_btn_cnt m1 = WAIT_BTN_SET c /\ evnt m1 = BTN_EVNT /\
  snapshots (snd (tick c io1 m)) (shared_of m) =
    [{| sh_evnt := BTN_EVNT; sh_rot_cnt := rot_cnt m; sh_btn := pressed |}] /\
  m2 = set_r2 (Z.land io2 (IO_USED_MASK c)) m1 /\
  notifications (snd (run c [io1; io2] m)) (shared_of m) = [BTN_EVNT].
Proof.
  intros Hc Hm Ha Hb2. cbv zeta.
  unfold btn_accepted in Ha. apply andb_prop in Ha. destruct Ha as [Hb1 Hw].
  apply Z.ltb_lt in Hw.
  pose proof (tick_word_ok c io1 m Hc Hm) as Hm1.
  pose proof (tick_btn_rising c io1 m Hc Hm Hb1) as E1.
  rewrite (proj2 (Z.leb_gt 1 (wait_btn_cnt m))) in E1 by lia.
  destruct (btn_dispatch_tests c _ _ Hb1) as (_ & _ & _ & _ & Hr).
  apply Z.eqb_neq in Hr.
  assert (Hrose : Z.land (rose (BTN_RTC_GPIO_MASK c) (Z.land io1 (IO_USED_MASK c)) (r2 m))
                    (Z.land (Z.land io1 (IO_USED_MASK c)) (BTN_RTC_GPIO_MASK c))
                  = rose (BTN_RTC_GPIO_MASK c) (Z.land io1 (IO_USED_MASK c)) (r2 m)).
  { unfold rose. apply Z.bits_inj'. intros i _. rewrite !Z.land_spec.
    destruct (Z.testbit (Z.lxor (Z.land io1 (IO_USED_MASK c)) (r2 m)) i),
             (Z.testbit (BTN_RTC_GPIO_MASK c) i),
             (Z.testbit io1 i), (Z.testbit (IO_USED_MASK c) i); reflexivity. }
  split.
  { intros Hz. rewrite Hz, Z.land_0_r in Hrose. congruence. }
  split; [apply land_mask_idem|]. split; [exact Hrose|].
  rewrite !run_cons. cbn [run fst snd]. rewrite app_nil_r.
  assert (Hb2' : btn_dispatch c (Z.land io2 (IO_USED_MASK c)) (r2 (fst (tick c io1 m))) = true)
    by (rewrite E1; exact Hb2).
  pose proof (tick_btn_rising c io2 _ Hc Hm1 Hb2') as E2.
  assert (HW : 1 <= WAIT_BTN_SET c) by apply Hc.
  revert E2. rewrite E1. cbn [fst snd store set_r2 wait_btn_cnt].
  rewrite (proj2 (Z.leb_le 1 (WAIT_BTN_SET c))) by lia. intros E2.
  destruct (tick c io2 _) as [m2 l2]. injection E2 as -> ->.
  cbn [fst snd app]. repeat split; reflexivity.
Qed.

Lemma button_press_reported_once_witness :
  let c := default_config in
  let m := entry c 0 in
  btn (fst (tick c 0x20 m)) = 0x20 /\
  fst (run c [0x20; 0x120] m) = set_r2 0x120 (fst (tick c 0x20 m)) /\
  notifications (snd (run c [0x20; 0x120] m)) (shared_of m) = [BTN_EVNT].
Proof.
  intros c m.
  destruct (button_press_reported_once c 0x20 0x120 m default_config_ok
              (entry_word_ok c 0 default_config_ok)
              ltac:(vm_compute; reflexivity) ltac:(vm_compute; reflexivity))
    as (_ & _ & _ & H4 & _ & _ & _ & H8 & H9).
  split; [rewrite H4; vm_compute; reflexivity|].
  split; [exact H8 | exact H9].
Defined.


(** ** Detent steps in terms of pin levels *)

Ltac bits_done :=
  repeat match goal with
         | |- context [Z.testbit ?x ?y] => destruct (Z.testbit x y)
         end; reflexivity.

Lemma ab_code_levels c r1 prev :
  2 <= AB_RTC_A_GPIO_NUM c ->
  ab_code c r1 prev =
  code_of_levels (Z.testbit r1 (AB_RTC_A_GPIO_NUM c + 1))
                 (Z.testbit r1 (AB_RTC_A_GPIO_NUM c))
                 (Z.testbit prev (AB_RTC_A_GPIO_NUM c + 1))
                 (Z.testbit prev (AB_RTC_A_GPIO_NUM c)).
Proof.
  intros HA. unfold ab_code, rsh.
  rewrite !(proj2 (Z.ltb_ge _ 0)) by lia.
  destruct (Z.testbit r1 (AB_RTC_A_GPIO_NUM c + 1)) eqn:E3,
           (Z.testbit r1 (AB_RTC_A_GPIO_NUM c)) eqn:E2,
           (Z.testbit prev (AB_RTC_A_GPIO_NUM c + 1)) eqn:E1,
           (Z.testbit prev (AB_RTC_A_GPIO_NUM c)) eqn:E0;
    cbn [code_of_levels Z.b2z Z.mul Z.add Pos.mul Pos.add];
    apply Z.bits_inj'; intros i Hi;
    rewrite Z.lor_spec, !Z.land_spec, !Z.shiftr_spec by lia;
    (assert (Hcases : i = 0 \/ i = 1 \/ i = 2 \/ i = 3 \/ 4 <= i) by lia;
     destruct Hcases as [-> | [-> | [-> | [-> | Hbig]]]];
     [ replace (0 + AB_RTC_A_GPIO_NUM c) with (AB_RTC_A_GPIO_NUM c) by lia;
       rewrite E0; cbn; bits_done
     | replace (1 + AB_RTC_A_GPIO_NUM c) with (AB_RTC_A_GPIO_NUM c + 1) by lia;
       rewrite E1; cbn; bits_done
     | replace (2 + (AB_RTC_A_GPIO_NUM c - 2)) with (AB_RTC_A_GPIO_NUM c) by lia;
       rewrite E2; cbn; bits_done
     | replace (3 + (AB_RTC_A_GPIO_NUM c - 2)) with (AB_RTC_A_GPIO_NUM c + 1) by lia;
       rewrite E3; cbn; bits_done
     | rewrite (Z.bits_above_log2 12 i), (Z.bits_above_log2 3 i), !andb_false_r
         by (cbn; lia);
       symmetry; cbn [orb];
       first [ reflexivity | apply Z.bits_0 | apply Z.bits_above_log2; cbn; lia ] ]).
Qed.

(** For encoder pins from 2 upwards (the shift count of [rot_changed] is
    then not negative): a tick counts a step only when the encoder leaves
    the position with both pins high.  It counts +1 when the lower pin (A)
    has fallen and the higher one is still high, -1 when the higher pin has
    fallen and the lower one is still high, and nothing when both have
    fallen, nor on any transition from another position. *)
Theorem detent_is_leaving_both_high c io m :
  2 <= AB_RTC_A_GPIO_NUM c ->
  let r1 := Z.land io (IO_USED_MASK c) in
  let lo := AB_RTC_A_GPIO_NUM c in
  let hi := AB_RTC_A_GPIO_NUM c + 1 in
  detent c io m =
    if rot_dispatch c r1 (r2 m) && Z.testbit (r2 m) lo && Z.testbit (r2 m) hi
    then (if Z.testbit r1 hi && negb (Z.testbit r1 lo) then 1
          else if negb (Z.testbit r1 hi) && Z.testbit r1 lo then -1
          else 0)
    else 0.
Proof.
  intros HA. cbv zeta. unfold detent. rewrite (ab_code_levels c _ _ HA).
  destruct (rot_dispatch c _ _); [|reflexivity]. cbn [andb].
  destruct (Z.testbit (Z.land io (IO_USED_MASK c)) (AB_RTC_A_GPIO_NUM c + 1)),
           (Z.testbit (Z.land io (IO_USED_MASK c)) (AB_RTC_A_GPIO_NUM c)),
           (Z.testbit (r2 m) (AB_RTC_A_GPIO_NUM c + 1)),
           (Z.testbit (r2 m) (AB_RTC_A_GPIO_NUM c)); reflexivity.
Qed.

Lemma detent_is_leaving_both_high_witness :
  let c := default_config in
  detent c 0x10 (entry c 0x18) = 1 /\ detent c 0x08 (entry c 0x18) = -1 /\
  detent c 0x00 (entry c 0x18) = 0 /\ detent c 0x18 (entry c 0x10) = 0.
Proof.
  intros c.
  rewrite !(detent_is_leaving_both_high c) by (vm_compute; discriminate).
  vm_compute. repeat split; reflexivity.
Defined.

(** ** The debounce windows *)

Lemma run_quiet_timers c ios m :
  config_ok c -> word_ok m -> quiet_for c m ios ->
  r2 (fst (run c ios m)) = r2 m /\
  wait_reed_cnt (fst (run c ios m)) =
    Z.max 0 (wait_reed_cnt m - Z.of_nat (length ios)) /\
  (wait_reed_cnt m = 0 ->
   wait_btn_cnt (fst (run c ios m)) =
     Z.max 0 (wait_btn_cnt m - Z.of_nat (length ios))).
Proof.
  intros Hc. revert m. induction ios as [|io ios IH]; intros m Hm Hq.
  - destruct Hm as (_ & _ & _ & _ & _ & _ & Hwr & Hwo & Hwb). unfold word16 in *.
    cbn [run fst length Z.of_nat]. repeat split; try lia.
  - assert (Hio : Z.land io (IO_USED_MASK c) = r2 m) by (inversion Hq; assumption).
    assert (Hqs : quiet_for c m ios) by (inversion Hq; assumption).
    pose proof (tick_word_ok c io m Hc Hm) as Hm1.
    pose proof (tick_quiet_eq c io m Hc Hm Hio) as Et.
    destruct Hm as (_ & _ & _ & _ & _ & _ & Hwr & Hwo & Hwb). unfold word16 in *.
    rewrite run_cons. cbn [fst length]. rewrite Nat2Z.inj_succ.
    specialize (IH (fst (tick c io m)) Hm1).
    revert IH. rewrite Et.
    destruct (Z.leb_spec 1 (wait_reed_cnt m)) as [H1|H1];
      [|destruct (Z.leb_spec 1 (wait_btn_cnt m)) as [H2|H2];
        [|destruct (Z.eqb_spec (wait_rot_cnt m) 1) as [H3|H3];
          [|destruct (Z.leb_spec 1 (wait_rot_cnt m)) as [H4|H4]]]];
      cbn [fst]; intros IH;
      destruct (IH Hqs) as (I1 & I2 & I3);
      cbn [store set_r2 r2 wait_reed_cnt wait_btn_cnt] in *;
      rewrite I1, I2; (split; [reflexivity|]); (split; [lia|]);
      intros Hz; rewrite I3 by lia; lia.
Qed.

(** After the reed timer was armed, a rising edge of reed 0 is accepted
    exactly when at least as many ticks without pin change have passed as
    the timer held; before that it is taken for a bounce.  The other timers
    have no influence on this window. *)
Theorem reed_window_is_exact c io ios m :
  config_ok c -> word_ok m -> quiet_for c m ios ->
  pin_rising (REED0_RTC_GPIO_NUM c) (Z.land io (IO_USED_MASK c)) (r2 m) = true ->
  reed0_accepted c io (fst (run c ios m)) =
    (wait_reed_cnt m <=? Z.of_nat (length ios)).
Proof.
  intros Hc Hm Hq Hp.
  destruct (run_quiet_timers c ios m Hc Hm Hq) as (I1 & I2 & _).
  unfold reed0_accepted. rewrite I1, I2, Hp. cbn [andb].
  assert (Hwr : word16 (wait_reed_cnt m)) by apply Hm. unfold word16 in Hwr.
  destruct (Z.leb_spec (wait_reed_cnt m) (Z.of_nat (length ios)));
    [apply Z.ltb_lt | apply Z.ltb_ge]; lia.
Qed.

Lemma reed_window_is_exact_witness :
  let c := default_config in
  let m := fst (run c [0x1; 0x1; 0x0] (entry c 0)) in
  reed0_accepted c 0x1 (fst (run c (repeat 0x0 9) m)) = false /\
  reed0_accepted c 0x1 (fst (run c (repeat 0x0 10) m)) = true.
Proof.
  intros c m.
  assert (Hm : word_ok m).
  { apply run_word_ok; [exact default_config_ok|].
    apply entry_word_ok. exact default_config_ok. }
  assert (Hq : forall n, quiet_for c m (repeat 0x0 n)).
  { intros n. apply Forall_forall. intros x Hx. apply repeat_spec in Hx. subst x.
    vm_compute. reflexivity. }
  rewrite !(reed_window_is_exact c 0x1 _ m default_config_ok Hm (Hq _))
    by (vm_compute; reflexivity).
  vm_compute. split; reflexivity.
Defined.

(** With the reed timer idle, a rising button edge is accepted exactly when
    at least as many ticks without pin change have passed as the button
    timer held. *)
Theorem button_window_is_exact c io ios m :
  config_ok c -> word_ok m -> quiet_for c m ios ->
  wait_reed_cnt m = 0 ->
  btn_dispatch c (Z.land io (IO_USED_MASK c)) (r2 m) = true ->
  btn_accepted c io (fst (run c ios m)) =
    (wait_btn_cnt m <=? Z.of_nat (length ios)).
Proof.
  intros Hc Hm Hq Hr Hb.
  destruct (run_quiet_timers c ios m Hc Hm Hq) as (I1 & _ & I3).
  unfold btn_accepted. rewrite I1, (I3 Hr), Hb. cbn [andb].
  assert (Hwb : word16 (wait_btn_cnt m)) by apply Hm. unfold word16 in Hwb.
  destruct (Z.leb_spec (wait_btn_cnt m) (Z.of_nat (length ios)));
    [apply Z.ltb_lt | apply Z.ltb_ge]; lia.
Qed.

Lemma button_window_is_exact_witness :
  let c := default_config in
  let m := fst (run c [0x20; 0x0] (entry c 0)) in
  btn_accepted c 0x20 (fst (run c (repeat 0x0 299) m)) = false /\
  btn_accepted c 0x20 (fst (run c (repeat 0x0 300) m)) = true.
Proof.
  intros c m.
  assert (Hm : word_ok m).
  { apply run_word_ok; [exact default_config_ok|].
    apply entry_word_ok. exact default_config_ok. }
  assert (Hq : forall n, quiet_for c m (repeat 0x0 n)).
  { intros n. apply Forall_forall. intros x Hx. apply repeat_spec in Hx. subst x.
    vm_compute. reflexivity. }
  rewrite !(button_window_is_exact c 0x20 _ m default_config_ok Hm (Hq _))
    by (vm_compute; reflexivity).
  vm_compute. split; reflexivity.
Defined.

(** ** One handler per tick *)

Lemma tick_reed0_bounce c io m :
  config_ok c -> word_ok m ->
  pin_rising (REED0_RTC_GPIO_NUM c) (Z.land io (IO_USED_MASK c)) (r2 m) = true ->
  1 <= wait_reed_cnt m ->
  tick c io m = (set_r2 (Z.land io (IO_USED_MASK c)) m, []).
Proof.
  intros Hc Hm H0 Hw.
  rewrite tick_tests by assumption. rewrite H0.
  apply pin_rising_neq in H0. apply Z.eqb_neq in H0. rewrite H0.
  unfold block. ulp_exec; reflexivity || lia.
Qed.

Lemma no_btn_evnt_nil : ~ In BTN_EVNT [].
Proof. intros H. exact H. Qed.

Lemma no_btn_evnt_one code : code <> BTN_EVNT -> ~ In BTN_EVNT [code].
Proof. intros Hne [H|H]; [congruence | exact H]. Qed.

(** The tick of a rising reed edge or of an encoder change: the button
    side is not touched, and either the sample is consumed or the edge of
    reed 0 stays pending with the reed timer running. *)
Lemma tick_higher_priority c io m :
  config_ok c -> word_ok m ->
  pin_rising (REED0_RTC_GPIO_NUM c) (Z.land io (IO_USED_MASK c)) (r2 m) = true \/
  pin_rising (REED1_RTC_GPIO_NUM c) (Z.land io (IO_USED_MASK c)) (r2 m) = true \/
  changed (IO_ROT_MASK c) (Z.land io (IO_USED_MASK c)) (r2 m) <> 0 ->
  btn (fst (tick c io m)) = btn m /\
  wait_btn_cnt (fst (tick c io m)) = wait_btn_cnt m /\
  ~ In BTN_EVNT (notifications (snd (tick c io m)) (shared_of m)) /\
  (r2 (fst (tick c io m)) = Z.land io (IO_USED_MASK c) \/
   (r2 (fst (tick c io m)) = r2 m /\
    pin_rising (REED0_RTC_GPIO_NUM c) (Z.land io (IO_USED_MASK c)) (r2 m) = true /\
    1 <= wait_reed_cnt (fst (tick c io m)))).
Proof.
  intros Hc Hm H.
  assert (HW : 1 <= WAIT_REED_SET c) by apply Hc.
  assert (Hne : (Z.land io (IO_USED_MASK c) =? r2 m) = false).
  { apply Z.eqb_neq. destruct H as [H | [H | H]].
    - apply (pin_rising_neq _ _ _ H).
    - apply (pin_rising_neq _ _ _ H).
    - apply (changed_neq _ _ _ H). }
  rewrite tick_tests by assumption. rewrite Hne.
  destruct (pin_rising (REED0_RTC_GPIO_NUM c) _ _) eqn:E0.
  - unfold block, notifications. ulp_exec;
      cbn [snapshots map apply_effect sh_evnt shared_of];
      (split; [reflexivity|]); (split; [reflexivity|]);
      (split; [first [apply no_btn_evnt_nil | apply no_btn_evnt_one; discriminate]|]);
      first [left; reflexivity | right; repeat split; lia].
  - destruct (pin_rising (REED1_RTC_GPIO_NUM c) _ _) eqn:E1.
    + unfold block, notifications. ulp_exec;
        cbn [snapshots map apply_effect sh_evnt shared_of];
        (split; [reflexivity|]); (split; [reflexivity|]);
        (split; [apply no_btn_evnt_nil|]); left; reflexivity.
    + destruct H as [H | [H | H]]; try discriminate H.
      apply Z.eqb_neq in H. rewrite H. cbn [negb].
      unfold block, notifications. ulp_exec;
        cbn [snapshots map apply_effect sh_evnt shared_of];
        (split; [reflexivity|]); (split; [reflexivity|]);
        (split; [apply no_btn_evnt_nil|]); left; reflexivity.
Qed.

Lemma tick_quiet_button_side c io m :
  config_ok c -> word_ok m -> Z.land io (IO_USED_MASK c) = r2 m ->
  r2 (fst (tick c io m)) = r2 m /\
  btn (fst (tick c io m)) = btn m /\
  wait_btn_cnt (fst (tick c io m)) <= wait_btn_cnt m /\
  forall s, ~ In BTN_EVNT (notifications (snd (tick c io m)) s).
Proof.
  intros Hc Hm Hq. rewrite (tick_quiet_eq c io m Hc Hm Hq).
  unfold notifications.
  repeat match goal with
         | |- context [if ?b then _ else _] => destruct b
         end;
    cbn [fst snd store r2 btn wait_btn_cnt snapshots map apply_effect sh_evnt];
    repeat split; try reflexivity; try lia;
    intros s; first [apply no_btn_evnt_nil | apply no_btn_evnt_one; discriminate].
Qed.

(** Each tick runs one handler, chosen in the order reed 0, reed 1,
    encoder, buttons.  So when a reed pin rises or an encoder pin changes
    in a sample, a button that was pressed in the same sample is never
    reported: with the sample held for two ticks it is consumed, the button
    word is not latched, the button timer is not armed and no BTN_EVNT
    is raised. *)
Theorem coinciding_button_press_is_lost c io m :
  config_ok c -> word_ok m ->
  pin_rising (REED0_RTC_GPIO_NUM c) (Z.land io (IO_USED_MASK c)) (r2 m) = true \/
  pin_rising (REED1_RTC_GPIO_NUM c) (Z.land io (IO_USED_MASK c)) (r2 m) = true \/
  changed (IO_ROT_MASK c) (Z.land io (IO_USED_MASK c)) (r2 m) <> 0 ->
  r2 (fst (run c [io; io] m)) = Z.land io (IO_USED_MASK c) /\
  btn (fst (run c [io; io] m)) = btn m /\
  wait_btn_cnt (fst (run c [io; io] m)) <= wait_btn_cnt m /\
  ~ In BTN_EVNT (notifications (snd (run c [io; io] m)) (shared_of m)).
Proof.
  intros Hc Hm H.
  destruct (tick_higher_priority c io m Hc Hm H) as (F1 & F2 & F3 & F4).
  pose proof (tick_word_ok c io m Hc Hm) as Hm1.
  rewrite !run_cons. cbn [run fst snd]. rewrite app_nil_r.
  rewrite notifications_app, tick_replay.
  destruct F4 as [F4 | (F4 & F5 & F6)].
  - destruct (tick_quiet_button_side c io _ Hc Hm1 (eq_sym F4)) as (Q1 & Q2 & Q3 & Q4).
    rewrite Q1, Q2, F1, F4. repeat split; try reflexivity; try lia.
    intros Hin. apply in_app_or in Hin. destruct Hin as [Hin | Hin].
    + exact (F3 Hin).
    + exact (Q4 _ Hin).
  - rewrite <- F4 in F5.
    rewrite (tick_reed0_bounce c io _ Hc Hm1 F5 F6). cbn [fst snd set_r2 r2 btn wait_btn_cnt].
    rewrite F1, F2, app_nil_r. repeat split; try reflexivity; try lia. exact F3.
Qed.

(** The sample 0x38 after 0x18 is a button press and is reported; 0x20
    after 0x18 is the same press together with an encoder change, and is
    not. *)
Lemma coinciding_button_press_is_lost_witness :
  let c := default_config in
  let m := entry c 0x18 in
  notifications (snd (run c [0x38; 0x38] m)) (shared_of m) = [BTN_EVNT] /\
  r2 (fst (run c [0x20; 0x20] m)) = 0x20 /\
  btn (fst (run c [0x20; 0x20] m)) = 0 /\
  ~ In BTN_EVNT (notifications (snd (run c [0x20; 0x20] m)) (shared_of m)).
Proof.
  intros c m.
  destruct (coinciding_button_press_is_lost c 0x20 m default_config_ok
              (entry_word_ok c 0x18 default_config_ok))
    as (H1 & H2 & _ & H4).
  - right. right. vm_compute. discriminate.
  - split; [vm_compute; reflexivity|].
    split; [exact H1|]. split; [exact H2 | exact H4].
Defined.

(** ** The debug output *)

(** The debug pin follows the reed debounce and nothing else: it is driven
    high in the tick of an accepted rising edge of reed 0, low in the tick
    without pin change that brings the reed timer from 1 to 0 (whether an
    edge of reed 0 or the opening of the contact had armed it), and in no
    other tick; without REED_DEBOUNCE_OUT it is never driven. *)
Theorem debug_pin_follows_reed_timer c io m :
  config_ok c -> word_ok m ->
  dbg_levels (snd (tick c io m)) =
    if REED_DEBOUNCE_OUT c then
      (if reed0_accepted c io m then [true]
       else if (Z.land io (IO_USED_MASK c) =? r2 m) && (wait_reed_cnt m =? 1)
       then [false]
       else [])
    else [].
Proof.
  intros Hc Hm. unfold reed0_accepted.
  destruct (Z.eqb_spec (Z.land io (IO_USED_MASK c)) (r2 m)) as [E|E].
  - rewrite (tick_quiet_eq c io m Hc Hm E). rewrite E, pin_rising_same.
    cbn [andb].
    assert (Hwr : word16 (wait_reed_cnt m)) by apply Hm. unfold word16 in Hwr.
    destruct (Z.eqb_spec (wait_reed_cnt m) 1) as [E1|E1].
    + rewrite (proj2 (Z.leb_le 1 (wait_reed_cnt m))) by lia.
      destruct (REED_DEBOUNCE_OUT c); reflexivity.
    + cbn [andb].
      repeat match goal with
             | |- context [if ?b then _ else _] => destruct b
             end; reflexivity.
  - rewrite tick_tests by assumption.
    rewrite (proj2 (Z.eqb_neq _ _) E). cbn [andb].
    rewrite (Z.ltb_antisym 1 (wait_reed_cnt m)).
    destruct (pin_rising (REED0_RTC_GPIO_NUM c) _ _); cbn [andb negb].
    + unfold block. ulp_unfold. ulp_simpl.
      destruct (1 <=? wait_reed_cnt m); cbn [negb]; ulp_simpl;
        [destruct (REED_DEBOUNCE_OUT c); reflexivity|].
      destruct (w8 (stage_cnt m + 1) <? REED_DIV c); ulp_simpl;
        destruct (REED_DEBOUNCE_OUT c); reflexivity.
    + unfold block. ulp_exec; reflexivity.
Qed.

Lemma debug_pin_follows_reed_timer_witness :
  let c := {| REED0_RTC_GPIO_NUM := 0; REED1_RTC_GPIO_NUM := 9;
              REED_DEBOUNCE_OUT := true; REED_DEBOUNCE_RTC_GPIO_NUM := 10;
              AB_RTC_A_GPIO_NUM := 3; BTN_RTC_GPIO_MASK := 0x0120;
              WAIT_REED_SET := 10; WAIT_ROT_SET := 500; WAIT_BTN_SET := 300;
              REED_DIV := 5; ROT_CNT_MAX := 19 |} in
  dbg_levels (snd (tick c 0x1 (entry c 0))) = [true] /\
  dbg_levels (snd (tick c 0x1 (fst (run c (0x1 :: 0x1 :: repeat 0x1 9) (entry c 0)))))
  = [false].
Proof.
  intros c.
  assert (Hc : config_ok c) by (unfold config_ok; simpl; lia).
  split.
  - rewrite (debug_pin_follows_reed_timer c 0x1 (entry c 0) Hc (entry_word_ok c 0 Hc)).
    vm_compute. reflexivity.
  - rewrite (debug_pin_follows_reed_timer c 0x1 _ Hc
               (run_word_ok c _ _ Hc (entry_word_ok c 0 Hc))).
    vm_compute. reflexivity.
Defined.

(** ** The look-up table as a decoder *)

(** For encoder pins from 2 upwards: [st_tbl], indexed as [rot_changed]
    does, gives a direction exactly for the transitions in which one of the
    two encoder pins changed and the other did not, and the transition
    taken backwards has the opposite direction. *)
Theorem st_tbl_single_pin_transitions c r1 prev :
  2 <= AB_RTC_A_GPIO_NUM c ->
  let lo := AB_RTC_A_GPIO_NUM c in
  let hi := AB_RTC_A_GPIO_NUM c + 1 in
  (nth (Z.to_nat (ab_code c r1 prev)) st_tbl 0 =? 0)
  = negb (xorb (xorb (Z.testbit r1 hi) (Z.testbit prev hi))
               (xorb (Z.testbit r1 lo) (Z.testbit prev lo))) /\
  nth (Z.to_nat (ab_code c prev r1)) st_tbl 0
  = opposite (nth (Z.to_nat (ab_code c r1 prev)) st_tbl 0).
Proof.
  intros HA. cbv zeta. rewrite !(ab_code_levels c _ _ HA).
  destruct (Z.testbit r1 (AB_RTC_A_GPIO_NUM c + 1)),
           (Z.testbit r1 (AB_RTC_A_GPIO_NUM c)),
           (Z.testbit prev (AB_RTC_A_GPIO_NUM c + 1)),
           (Z.testbit prev (AB_RTC_A_GPIO_NUM c)); split; reflexivity.
Qed.

(** Encoder pins 3 and 4: the lower pin falls from the position with both
    pins high (direction 2), and the way back (direction 1). *)
Lemma st_tbl_single_pin_transitions_witness :
  let c := default_config in
  (nth (Z.to_nat (ab_code c 0x10 0x18)) st_tbl 0 =? 0) = false /\
  nth (Z.to_nat (ab_code c 0x18 0x10)) st_tbl 0
  = opposite (nth (Z.to_nat (ab_code c 0x10 0x18)) st_tbl 0).
Proof.
  intros c.
  destruct (st_tbl_single_pin_transitions c 0x10 0x18 ltac:(vm_compute; discriminate))
    as [H1 H2].
  split; [rewrite H1; vm_compute; reflexivity | exact H2].
Defined.

(** ** The event codes, class by class *)

(** C4, amended: the code the engine writes into the event register, and
    the main cores find at the wake, is 1 for a reed trigger (an accepted
    reed 0 edge), 2 for a rotation (the rotary timer running out) and 3 for
    a button press (an accepted button edge), as the engine's list of
    variables documents; no tick notifies any other code.  These are not
    the constants of keypad_rotdecode.h for the class: there 1, 2 and 3 are
    EVNT_BTN_PRSS, EVNT_BTN_RELS and EVNT_ROT, so the rotation code is not
    EVNT_ROT, the button code is not EVNT_BTN_PRSS, and the header has no
    name for the reed trigger. *)
Theorem engine_event_code_per_class c io m code :
  config_ok c -> word_ok m ->
  In code (notifications (snd (tick c io m)) (shared_of m)) ->
  ((code = 1 /\ code = REED_EVNT /\ reed0_accepted c io m = true) \/
   (code = 2 /\ code = ROT_EVNT /\ rot_expiring c io m = true) \/
   (code = 3 /\ code = BTN_EVNT /\ btn_accepted c io m = true)) /\
  evnt (fst (tick c io m)) = code /\
  (EVNT_BTN_PRSS, EVNT_BTN_RELS, EVNT_ROT) = (1, 2, 3) /\
  ROT_EVNT <> EVNT_ROT /\ BTN_EVNT <> EVNT_BTN_PRSS.
Proof.
  intros Hc Hm.
  assert (Hhdr : (EVNT_BTN_PRSS, EVNT_BTN_RELS, EVNT_ROT) = (1, 2, 3) /\
                 ROT_EVNT <> EVNT_ROT /\ BTN_EVNT <> EVNT_BTN_PRSS)
    by (repeat split; discriminate).
  unfold reed0_accepted, btn_accepted, rot_expiring, btn_dispatch.
  destruct (Z.eqb_spec (Z.land io (IO_USED_MASK c)) (r2 m)) as [E|E].
  - rewrite (tick_quiet_eq c io m Hc Hm E).
    destruct Hm as (_ & _ & _ & _ & _ & _ & Hwr & Hwo & Hwb). unfold word16 in *.
    unfold notifications.
    destruct (Z.leb_spec 1 (wait_reed_cnt m));
      [cbn [fst snd snapshots map];
       destruct ((wait_reed_cnt m =? 1) && REED_DEBOUNCE_OUT c);
       cbn [snapshots map In]; intros []|].
    destruct (Z.leb_spec 1 (wait_btn_cnt m));
      [cbn [fst snd snapshots map apply_effect In]; intros []|].
    destruct (Z.eqb_spec (wait_rot_cnt m) 1) as [E1|E1].
    + cbn [fst snd snapshots map apply_effect sh_evnt In store evnt].
      intros [<- | []]. split; [|split; [reflexivity | exact Hhdr]].
      right; left. repeat split.
      rewrite (proj2 (Z.ltb_lt (wait_reed_cnt m) 1)),
              (proj2 (Z.ltb_lt (wait_btn_cnt m) 1)) by lia.
      reflexivity.
    + destruct (1 <=? wait_rot_cnt m);
        cbn [fst snd snapshots map apply_effect In]; intros [].
  - rewrite tick_tests by assumption.
    rewrite (proj2 (Z.eqb_neq _ _) E).
    rewrite (Z.ltb_antisym 1 (wait_reed_cnt m)), (Z.ltb_antisym 1 (wait_btn_cnt m)).
    destruct (pin_rising (REED0_RTC_GPIO_NUM c) _ _); cbn [andb negb].
    + unfold block, notifications. ulp_unfold. ulp_simpl.
      destruct (1 <=? wait_reed_cnt m); cbn [negb andb]; ulp_simpl;
        [cbn [snapshots map In]; intros []|].
      destruct (w8 (stage_cnt m + 1) <? REED_DIV c); ulp_simpl;
        destruct (REED_DEBOUNCE_OUT c);
        cbn [snapshots map apply_effect sh_evnt In app];
        (lazymatch goal with
         | |- False -> _ => intros []
         | |- _ => intros [<- | []];
                   (split; [|split; [reflexivity | exact Hhdr]]);
                   left; repeat split
         end).
    + destruct (pin_rising (REED1_RTC_GPIO_NUM c) _ _); cbn [andb negb];
        [unfold block, notifications; ulp_exec; cbn [snapshots map In]; intros []|].
      destruct (changed (IO_ROT_MASK c) _ _ =? 0); cbn [andb negb];
        [|unfold block, notifications; ulp_exec;
          cbn [snapshots map apply_effect In]; intros []].
      destruct (rose (BTN_RTC_GPIO_MASK c) _ _ =? 0); cbn [andb negb];
        [unfold block, notifications; ulp_exec;
         cbn [snapshots map apply_effect In]; intros []|].
      unfold block, notifications. ulp_unfold. ulp_simpl.
      destruct (1 <=? wait_btn_cnt m); cbn [negb andb]; ulp_simpl;
        [cbn [snapshots map In]; intros []|].
      cbn [snapshots map apply_effect sh_evnt In].
      intros [<- | []]. split; [|split; [reflexivity | exact Hhdr]].
      right; right. repeat split.
Qed.

(** A button press after [entry]: the code of the wake is 3. *)
Lemma engine_event_code_per_class_witness :
  let c := default_config in
  evnt (fst (tick c 0x20 (entry c 0))) = 3 /\
  btn_accepted c 0x20 (entry c 0) = true /\
  ROT_EVNT <> EVNT_ROT /\ BTN_EVNT <> EVNT_BTN_PRSS.
Proof.
  intros c.
  destruct (engine_event_code_per_class c 0x20 (entry c 0) 3 default_config_ok
              (entry_word_ok c 0 default_config_ok))
    as ([(H & _) | [(H & _) | (_ & _ & Hb)]] & He & _ & H4 & H5);
    try discriminate H.
  - vm_compute. left. reflexivity.
  - split; [exact He|]. split; [exact Hb|]. split; [exact H4 | exact H5].
Defined.
